(** * The metadata provider of Metaflow: hierarchy validation, tag filters,
      attempt reconstruction and record building

    A shallow embedding of [metaflow/metadata/metadata.py] (class
    [MetadataProvider]) and the properties of its query engine.

    Conventions of the embedding:
    - Python [int] is [Z]; Python [str] is [string] (ASCII text);
    - a raised exception is a value of [exn], and a function that can raise
      returns a [result];
    - a [dict] with a fixed set of keys is a record, a key that may be absent
      (or hold [None]) is an [option] field;
    - a [set] of strings is a [gset string]. *)

From Stdlib Require Import ZArith Ascii String List Lia.
From stdpp Require Import base option list strings pretty gmap sets.

#[local] Open Scope Z_scope.
#[local] Open Scope string_scope.
#[local] Open Scope list_scope.

(** ** Python values, exceptions and the builtin [int] *)

Module Py.

(** The values that reach the provider as an [attempt] argument, as the
    ['value'] of a metadata record or as an identifier. *)
Inductive val :=
| None_
| Int (z : Z)
| Str (s : string).

Inductive exn :=
| MetaflowInternalError (msg : string)
| ValueError (msg : string)
| TypeError (msg : string).

(** A computation that returns or raises. *)
Inductive result (A : Type) :=
| Returns (a : A)
| Raises (e : exn).
Arguments Returns {A} a.
Arguments Raises {A} e.

Definition bind {A B} (m : result A) (k : A -> result B) : result B :=
  match m with
  | Returns a => k a
  | Raises e => Raises e
  end.

Definition is_space (c : ascii) : bool :=
  match nat_of_ascii c with
  | 9%nat | 10%nat | 11%nat | 12%nat | 13%nat | 32%nat => true
  | _ => false
  end.

Definition is_digit (c : ascii) : bool :=
  ((48 <=? nat_of_ascii c)%nat && (nat_of_ascii c <=? 57)%nat)%bool.

Definition digit_value (c : ascii) : Z := Z.of_nat (nat_of_ascii c) - 48.

Fixpoint lstrip (s : list ascii) : list ascii :=
  match s with
  | c :: s' => if is_space c then lstrip s' else s
  | [] => []
  end.

Definition strip (s : list ascii) : list ascii :=
  rev (lstrip (rev (lstrip s))).

(** A decimal literal: digits, single underscores allowed between two
    digits.  [prev] tells that the previous character was a digit. *)
Fixpoint int_digits (acc : Z) (prev : bool) (s : list ascii) : option Z :=
  match s with
  | [] => if prev then Some acc else None
  | c :: s' =>
      if is_digit c then int_digits (10 * acc + digit_value c) true s'
      else if (Ascii.eqb c "_" && prev)%bool then int_digits acc false s'
      else None
  end.

(** [int(s)] for a string [s]: surrounding whitespace is dropped, a sign
    may precede the literal; [None] stands for [ValueError]. *)
Definition int_of_str (s : string) : option Z :=
  match strip (list_ascii_of_string s) with
  | "-"%char :: d => Z.opp <$> int_digits 0 false d
  | "+"%char :: d => int_digits 0 false d
  | d => int_digits 0 false d
  end.

(** The builtin [int(v)]. *)
Definition int (v : val) : result Z :=
  match v with
  | Int z => Returns z
  | Str s =>
      match int_of_str s with
      | Some z => Returns z
      | None => Raises (ValueError "invalid literal for int() with base 10")
      end
  | None_ => Raises (TypeError "int() argument must be a string or a number")
  end.

End Py.

Export Py (val, exn, result).
#[global] Instance result_ret : MRet result := @Py.Returns.
#[global] Instance result_bind : MBind result := fun A B k m => Py.bind m k.

(** ** The object hierarchy and [get_object] *)

(** [filters]: a dict from filter kind to one tag value, in insertion
    order; [None] when the caller passes no filters. *)
Definition filters_t : Type := option (list (string * string)).

(** The table [obj_order] of [get_object]. *)
Definition obj_order : gmap string Z :=
  list_to_map
    [("root", 0); ("flow", 1); ("run", 2); ("step", 3); ("task", 4);
     ("artifact", 5); ("metadata", 6); ("self", 7)].

(** The arguments [_get_object_internal] is called with. *)
Record fetch_call := FetchCall {
  fc_obj_type : string;
  fc_obj_order : Z;
  fc_sub_type : string;
  fc_sub_order : Z;
  fc_filters : filters_t;
  fc_attempt : option Z;
  fc_args : list val
}.

(** What [get_object] does with the value [pre_filter] the backend
    returned. *)
Inductive post_filter :=
| ReturnAsIs
| ReconstructForAttempt (attempt_int : Z).

(** A call of [get_object] either raises before the backend is reached, or
    calls [_get_object_internal] once and post-processes its result. *)
Inductive outcome :=
| Raise (e : exn)
| Fetch (call : fetch_call) (post : post_filter).

(** The block [if attempt is not None: try: ... except ValueError: ...
    else: attempt_int = None] of [get_object]. *)
Definition check_attempt (attempt : val) : result (option Z) :=
  match attempt with
  | Py.None_ => Py.Returns None
  | _ =>
      match Py.int attempt with
      | Py.Returns attempt_int =>
          if bool_decide (attempt_int < 0) then
            (* [raise ValueError("Attempt can only be positive")], caught below *)
            Py.Raises (Py.ValueError "Attempt can only be a positive integer")
          else Py.Returns (Some attempt_int)
      | Py.Raises (Py.ValueError _) =>
          Py.Raises (Py.ValueError "Attempt can only be a positive integer")
      | Py.Raises e => Py.Raises e
      end
  end.

Definition get_object (obj_type sub_type : string) (filters : filters_t)
    (attempt : val) (args : list val) : outcome :=
  match obj_order !! obj_type with
  | None => Raise (Py.MetaflowInternalError ("Cannot find type " +:+ obj_type))
  | Some type_order =>
    if bool_decide (type_order > 5) then
      Raise (Py.MetaflowInternalError ("Type " +:+ obj_type +:+ " is not allowed"))
    else
    match obj_order !! sub_type with
    | None => Raise (Py.MetaflowInternalError ("Cannot find subtype " +:+ sub_type))
    | Some sub_order =>
      if bool_decide (type_order >= sub_order) then
        Raise (Py.MetaflowInternalError
                 ("Subtype " +:+ sub_type +:+ " not allowed for " +:+ obj_type))
      else if bool_decide (sub_type = "metadata") && negb (bool_decide (obj_type = "task")) then
        Raise (Py.MetaflowInternalError "Metadata can only be retrieved at the task level")
      else
        match check_attempt attempt with
        | Py.Raises e => Raise e
        | Py.Returns attempt_int =>
            let call := FetchCall obj_type type_order sub_type sub_order
                                  filters attempt_int args in
            match attempt_int with
            | Some n => if bool_decide (sub_order ≠ 6) then Fetch call ReturnAsIs
                        else Fetch call (ReconstructForAttempt n)
            | None => Fetch call ReturnAsIs
            end
        end
    end
  end.

Definition calls_backend (o : outcome) : bool :=
  match o with
  | Fetch _ _ => true
  | Raise _ => false
  end.


(** ** Records exchanged with the backend *)

(** [MetaDatum = namedtuple('MetaDatum', 'field value type tags')]. *)
Module MetaDatum.
Record t := mk {
  field : string;
  value : val;
  type : string;
  tags : option (list string)
}.
End MetaDatum.

(** [DataArtifact = namedtuple('DataArtifact', 'name ds_type ds_root url type sha')]. *)
Module DataArtifact.
Record t := mk {
  name : string;
  ds_type : string;
  ds_root : string;
  url : option string;
  type : string;
  sha : string
}.
End DataArtifact.

(** The dict built by [_metadata_to_json] and read by
    [_reconstruct_metadata_for_attempt].  ['tags'] is [None] when the key is
    absent or null. *)
Module Md.
Record t := mk {
  flow_id : string;
  run_number : val;
  step_name : string;
  task_id : val;
  field_name : string;
  type : string;
  value : val;
  tags : option (list string);
  user_name : string;
  ts_epoch : Z
}.
End Md.

(** The dict returned by [_all_obj_elements]. *)
Module ObjElements.
Record t := mk {
  flow_id : string;
  user_name : string;
  tags : list string;
  system_tags : list string;
  ts_epoch : Z
}.
End ObjElements.

(** The dict built by [_artifacts_to_json] for one artifact. *)
Module Art.
Record t := mk {
  run_number : val;
  step_name : string;
  task_id : val;
  attempt_id : val;
  name : string;
  content_type : string;
  type : string;
  sha : string;
  ds_type : string;
  location : string;
  flow_id : string;
  user_name : string;
  tags : list string;
  system_tags : list string;
  ts_epoch : Z
}.
End Art.

(** What [_apply_filter] reads of an object: [obj.get('tags')] and
    [obj.get('system_tags')], [None] for an absent key. *)
Class Tagged (A : Type) := {
  get_tags : A -> option (list string);
  get_system_tags : A -> option (list string)
}.

#[global] Instance Art_tagged : Tagged Art.t :=
  {| get_tags := fun a => Some (Art.tags a);
     get_system_tags := fun a => Some (Art.system_tags a) |}.

(** ** [_apply_filter] *)

Section ApplyFilter.
Context {A : Type} `{Tagged A}.

(** One iteration of [for key, value in filters.items()]: the three [if]
    statements append to [result], which then becomes the next
    [starting_point]. *)
Definition filter_step (starting_point : list A) (item : string * string) : list A :=
  let '(key, value) := item in
  let result : list A := [] in
  let result :=
    if bool_decide (key = "any_tags") then
      result ++ filter (fun obj => value ∈ default [] (get_tags obj)
                                   \/ value ∈ default [] (get_system_tags obj))
                       starting_point
    else result in
  let result :=
    if bool_decide (key = "tags") then
      result ++ filter (fun obj => value ∈ default [] (get_tags obj)) starting_point
    else result in
  let result :=
    if bool_decide (key = "system_tags") then
      result ++ filter (fun obj => value ∈ default [] (get_system_tags obj)) starting_point
    else result in
  result.

Definition _apply_filter (elts : list A) (filters : filters_t) : list A :=
  match filters with
  | None => elts
  | Some items => fold_left filter_step items elts
  end.

End ApplyFilter.

(** ** [_reconstruct_metadata_for_attempt] *)

(** [attempt_id_re = re.compile(r"attempt_id:([0-9]+)")] and
    [attempt_id_re.match(t)]: the pattern is anchored at the start of [t]
    only; the result is [group(1)], the longest run of digits after the
    prefix. *)
Fixpoint take_digits (s : string) : string :=
  match s with
  | String c s' => if Py.is_digit c then String c (take_digits s') else ""
  | EmptyString => ""
  end.

Fixpoint strip_prefix (p s : string) : option string :=
  match p, s with
  | EmptyString, _ => Some s
  | String a p', String b s' => if Ascii.eqb a b then strip_prefix p' s' else None
  | String _ _, EmptyString => None
  end.

Definition attempt_id_re_match (t : string) : option string :=
  match strip_prefix "attempt_id:" t with
  | Some rest =>
      match take_digits rest with
      | EmptyString => None
      | group1 => Some group1
      end
  | None => None
  end.

(** The inner [for t in all_tags] loop: [Some group1] when it leaves through
    [break] at the first matching tag, [None] when it runs into its [else]
    clause. *)
Fixpoint scan_tags (all_tags : list string) : option string :=
  match all_tags with
  | [] => None
  | t :: rest =>
      match attempt_id_re_match t with
      | Some group1 => Some group1
      | None => scan_tags rest
      end
  end.

Record scan_state := ScanState {
  have_all_attempt_id : bool;
  attempts_start : gmap Z Z;
  post_filter_acc : list Md.t
}.

Definition scan_init : scan_state := ScanState true ∅ [].

(** The body of [for v in all_metadata]. *)
Definition scan_record (attempt_id : Z) (st : scan_state) (v : Md.t) : result scan_state :=
  starts ← (if bool_decide (Md.field_name v = "attempt") then
               n ← Py.int (Md.value v);
               mret (<[n := Md.ts_epoch v]> (attempts_start st))
             else mret (attempts_start st));
  let all_tags := default [] (Md.tags v) in
  match scan_tags all_tags with
  | Some group1 =>
      n ← Py.int (Py.Str group1);
      mret (ScanState (have_all_attempt_id st) starts
              (if bool_decide (n = attempt_id) then post_filter_acc st ++ [v]
               else post_filter_acc st))
  | None => mret (ScanState false starts (post_filter_acc st))
  end.

Fixpoint scan_all (attempt_id : Z) (st : scan_state) (all_metadata : list Md.t)
    : result scan_state :=
  match all_metadata with
  | [] => mret st
  | v :: rest => st' ← scan_record attempt_id st v; scan_all attempt_id st' rest
  end.

Definition _reconstruct_metadata_for_attempt (all_metadata : list Md.t) (attempt_id : Z)
    : result (list Md.t) :=
  st ← scan_all attempt_id scan_init all_metadata;
  if negb (have_all_attempt_id st) then
    let start_ts := default (-1) (attempts_start st !! attempt_id) in
    if bool_decide (start_ts < 0) then mret []
    else
      let end_ts := default 32503680000000 (attempts_start st !! (attempt_id + 1)) in
      mret (filter (fun v => Md.ts_epoch v >= start_ts /\ Md.ts_epoch v < end_ts)
                   all_metadata)
  else mret (post_filter_acc st).

(** The value [get_object] returns once the backend has returned
    [pre_filter], for a metadata query. *)
Definition finish (post : post_filter) (pre_filter : list Md.t) : result (list Md.t) :=
  match post with
  | ReturnAsIs => mret pre_filter
  | ReconstructForAttempt attempt_int =>
      _reconstruct_metadata_for_attempt pre_filter attempt_int
  end.

(** ** The provider: sticky tags and the record builders *)

(** The dict [self._environment.get_environment_info()], as far as [_tags]
    reads it. *)
Module EnvInfo.
Record t := mk {
  runtime : string;
  python_version_code : string;
  metaflow_version : string;
  metaflow_r_version : option string;
  r_version_code : option string
}.
End EnvInfo.

(** What the provider reads from outside: [get_username()],
    [resolve_identity()], the UTC date, the environment, and the clock
    ([time_ms k] is [int(round(time.time() * 1000))] at the [k]-th record of
    one call). *)
Record externals := Externals {
  get_username : string;
  resolve_identity : string;
  utcnow_date : string;
  get_environment_info : EnvInfo.t;
  time_ms : nat -> Z
}.

(** The fields of a [MetadataProvider] instance the builders use. *)
Record provider := Provider {
  _task_id_seq : Z;
  sticky_tags : gset string;
  sticky_sys_tags : gset string;
  _flow_name : string
}.

(** Truth value of an optional list argument ([if tags:]). *)
Definition truthy {A} (l : option (list A)) : bool :=
  match l with
  | Some (_ :: _) => true
  | _ => false
  end.

Definition add_sticky_tags (self : provider) (tags sys_tags : option (list string))
    : provider :=
  let self :=
    if truthy tags then
      Provider (_task_id_seq self)
               (sticky_tags self ∪ list_to_set (default [] tags))
               (sticky_sys_tags self) (_flow_name self)
    else self in
  if truthy sys_tags then
    Provider (_task_id_seq self) (sticky_tags self)
             (sticky_sys_tags self ∪ list_to_set (default [] sys_tags))
             (_flow_name self)
  else self.

Definition _tags (ext : externals) : list string :=
  let env := get_environment_info ext in
  let tags :=
    [resolve_identity ext;
     "runtime:" +:+ EnvInfo.runtime env;
     "python_version:" +:+ EnvInfo.python_version_code env;
     "date:" +:+ utcnow_date ext] in
  let tags :=
    if bool_decide (EnvInfo.metaflow_version env ≠ "") then
      tags ++ ["metaflow_version:" +:+ EnvInfo.metaflow_version env]
    else tags in
  let tags :=
    match EnvInfo.metaflow_r_version env with
    | Some v => tags ++ ["metaflow_r_version:" +:+ v]
    | None => tags
    end in
  match EnvInfo.r_version_code env with
  | Some v => tags ++ ["r_version:" +:+ v]
  | None => tags
  end.

Definition __init__ (ext : externals) (flow_name : string) : provider :=
  add_sticky_tags (Provider (-1) ∅ ∅ flow_name) None (Some (_tags ext)).

Section RecordBuilder.

(** [list(s)] for a set [s]: Python fixes no iteration order, so the order
    is a parameter of the builders. *)
Variable list_of_set : gset string -> list string.

Definition _all_obj_elements (self : provider) (ext : externals) (k : nat)
    (tags sys_tags : gset string) : ObjElements.t :=
  ObjElements.mk
    (_flow_name self)
    (get_username ext)
    (if bool_decide (tags ≠ ∅) then list_of_set tags else [])
    (if bool_decide (sys_tags ≠ ∅) then list_of_set sys_tags else [])
    (time_ms ext k).

Definition _artifacts_to_json (self : provider) (ext : externals)
    (run_id : val) (step_name : string) (task_id attempt_id : val)
    (artifacts : list DataArtifact.t) : list Art.t :=
  imap (fun k art =>
          let e := _all_obj_elements self ext k (sticky_tags self) (sticky_sys_tags self) in
          Art.mk run_id step_name task_id attempt_id
                 (DataArtifact.name art)
                 (DataArtifact.type art)
                 "metaflow.artifact"
                 (DataArtifact.sha art)
                 (DataArtifact.ds_type art)
                 (match DataArtifact.url art with
                  | Some u => if bool_decide (u ≠ "") then u
                              else ":root:" +:+ DataArtifact.ds_root art
                  | None => ":root:" +:+ DataArtifact.ds_root art
                  end)
                 (ObjElements.flow_id e)
                 (ObjElements.user_name e)
                 (ObjElements.tags e)
                 (ObjElements.system_tags e)
                 (ObjElements.ts_epoch e))
       artifacts.

Definition _metadata_to_json (self : provider) (ext : externals)
    (run_id : val) (step_name : string) (task_id : val)
    (metadata : list MetaDatum.t) : list Md.t :=
  let user := get_username ext in
  imap (fun k datum =>
          Md.mk (_flow_name self) run_id step_name task_id
                (MetaDatum.field datum)
                (MetaDatum.type datum)
                (MetaDatum.value datum)
                (Some (if truthy (MetaDatum.tags datum)
                       then list_of_set (list_to_set (default [] (MetaDatum.tags datum)))
                       else []))
                user
                (time_ms ext k))
       metadata.

End RecordBuilder.

(** The states a provider goes through: the only operation of the class
    that writes the sticky tags after construction is [add_sticky_tags]. *)
Inductive evolves : provider -> provider -> Prop :=
| evolves_refl self : evolves self self
| evolves_add self self' tags sys_tags :
    evolves self self' -> evolves self (add_sticky_tags self' tags sys_tags).

(** ** Vocabulary of the statements *)

(** The eight names of the hierarchy, in order. *)
Definition type_names : list string :=
  ["root"; "flow"; "run"; "step"; "task"; "artifact"; "metadata"; "self"].

(** A legal aggregation: both names known, container at most [artifact],
    container strictly above the aggregated level, metadata only from a
    task. *)
Definition valid_aggregation (obj_type sub_type : string) : Prop :=
  ∃ a b, obj_order !! obj_type = Some a ∧ obj_order !! sub_type = Some b
         ∧ a <= 5 ∧ a < b ∧ (sub_type = "metadata" → obj_type = "task").

(** An acceptable [attempt] argument: [None], or a value [int] turns into a
    non-negative integer. *)
Definition valid_attempt (attempt : val) : Prop :=
  attempt = Py.None_ ∨ ∃ n, Py.int attempt = Py.Returns n ∧ 0 <= n.

Section FilterVocabulary.
Context {A : Type} `{Tagged A}.

(** The test one (kind, value) item of a filters mapping stands for; an
    unknown kind accepts nothing. *)
Definition keeps (item : string * string) (obj : A) : Prop :=
  (item.1 = "any_tags" ∧ (item.2 ∈ default [] (get_tags obj)
                           ∨ item.2 ∈ default [] (get_system_tags obj)))
  ∨ (item.1 = "tags" ∧ item.2 ∈ default [] (get_tags obj))
  ∨ (item.1 = "system_tags" ∧ item.2 ∈ default [] (get_system_tags obj)).

#[global] Instance keeps_dec item obj : Decision (keeps item obj).
Proof. unfold keeps. apply _. Defined.

End FilterVocabulary.

(** The number a string of decimal digits denotes, most significant digit
    first. *)
Fixpoint decimal (acc : Z) (s : string) : Z :=
  match s with
  | EmptyString => acc
  | String c s' => decimal (10 * acc + Py.digit_value c) s'
  end.

Definition all_digits (s : string) : Prop :=
  Forall (fun c => Py.is_digit c = true) (list_ascii_of_string s).

(** The attempt an [attempt_id:<int>] tag names; [None] for any other
    tag. *)
Definition attempt_tag (t : string) : option Z :=
  decimal 0 <$> attempt_id_re_match t.

(** The attempt a record is tagged with: that of its first
    [attempt_id:<int>] tag. *)
Definition explicit_attempt (v : Md.t) : option Z :=
  head (omap attempt_tag (default [] (Md.tags v))).

(** The attempt an ['attempt'] record announces. *)
Definition attempt_number (v : Md.t) : option Z :=
  if bool_decide (Md.field_name v = "attempt") then
    match Py.int (Md.value v) with
    | Py.Returns n => Some n
    | Py.Raises _ => None
    end
  else None.

(** The start of attempt [n]: the timestamp of the last ['attempt'] record
    for [n]. *)
Definition attempt_start (all_metadata : list Md.t) (n : Z) : option Z :=
  last (omap (fun v => if bool_decide (attempt_number v = Some n)
                       then Some (Md.ts_epoch v) else None) all_metadata).

(** The table [attempts_start] once the loop has gone through
    [all_metadata], starting from the table [m]. *)
Definition starts_after (m : gmap Z Z) (all_metadata : list Md.t) : gmap Z Z :=
  foldl (fun m v => match attempt_number v with
                    | Some n => <[n := Md.ts_epoch v]> m
                    | None => m
                    end) m all_metadata.

(** An ['attempt'] record is well formed when [int] converts its value. *)
Definition attempt_value_ok (v : Md.t) : Prop :=
  Md.field_name v = "attempt" → ∃ n, Py.int (Md.value v) = Py.Returns n.

(** The far-future end of the window of the last attempt. *)
Definition year_3000 : Z := 32503680000000.

(** The pattern [attempt_id:<int>] in words: [t] starts with [attempt_id:],
    goes on with a non-empty run of digits that ends where [t] ends or
    where a character that is no digit comes, and [n] is the number the
    digits denote. *)
Definition is_attempt_tag (t : string) (n : Z) : Prop :=
  ∃ digits rest,
    t = "attempt_id:" +:+ digits +:+ rest
    ∧ digits ≠ "" ∧ all_digits digits
    ∧ match rest with
      | String c _ => Py.is_digit c = false
      | EmptyString => True
      end
    ∧ decimal 0 digits = n.

(** A record tagged with attempt [n]: the first of its tags of the form
    [attempt_id:<int>] names [n]. *)
Definition tagged_with (v : Md.t) (n : Z) : Prop :=
  ∃ before t after,
    default [] (Md.tags v) = before ++ t :: after
    ∧ (∀ t' m, t' ∈ before → ¬ is_attempt_tag t' m)
    ∧ is_attempt_tag t n.

(** ** Sample data for the examples *)

Definition sample_md (f : string) (v : val) (ts : Z) (tg : option (list string)) : Md.t :=
  Md.mk "HelloFlow" (Py.Int 7) "start" (Py.Int 1) f "t" v tg "alice" ts.

Definition sample_art (n : string) (tg sys : list string) : Art.t :=
  Art.mk (Py.Int 7) "start" (Py.Int 1) (Py.Int 0) n "pickle" "metaflow.artifact"
         "0a1b" "local" ":root:/tmp" "HelloFlow" "alice" tg sys 1000.

Definition sample_arts : list Art.t :=
  [sample_art "x" ["a"] ["b"]; sample_art "y" ["a"] []; sample_art "z" [] ["b"]].

(** The example of a task with two attempts, every record tagged with its
    attempt, and the same records as a legacy backend stored them, without
    tags. *)
Definition sample_tagged : list Md.t :=
  [sample_md "attempt" (Py.Str "0") 100 (Some ["attempt_id:0"]);
   sample_md "x" (Py.Str "a") 150 (Some ["attempt_id:0"]);
   sample_md "attempt" (Py.Str "1") 500 (Some ["attempt_id:1"]);
   sample_md "x" (Py.Str "b") 600 (Some ["attempt_id:1"])].

Definition sample_legacy : list Md.t :=
  [sample_md "attempt" (Py.Str "0") 100 None;
   sample_md "x" (Py.Str "a") 150 (Some []);
   sample_md "attempt" (Py.Str "1") 500 None;
   sample_md "x" (Py.Str "b") 600 (Some [])].

Definition sample_ext : externals :=
  Externals "alice" "user:alice" "2021-10-01"
            (EnvInfo.mk "dev" "3.8.10" "2.4.0" None None)
            (fun k => 1633046400000 + Z.of_nat k).

Definition sample_provider : provider := __init__ sample_ext "HelloFlow".

Definition sample_data_artifact : DataArtifact.t :=
  DataArtifact.mk "x" "local" "/tmp/.metaflow" None "pickle" "0a1b".

Definition sample_datum : MetaDatum.t :=
  MetaDatum.mk "attempt" (Py.Str "0") "attempt" (Some ["attempt_id:0"]).

(** ** The records of flows, runs, steps and tasks *)

(** A value stored under a key of a dict handed to the backend: a scalar or
    a list of tags. *)
Inductive jval :=
| JScalar (v : val)
| JTags (l : list string).

(** [d.update(e)]: the keys of [e] win. *)
Definition dict_update (d e : gmap string jval) : gmap string jval := e ∪ d.

Module ObjectJson.

(** [_all_obj_elements(tags, sys_tags)] as the object builders call it, with
    lists of tags or [None]. *)
Definition _all_obj_elements (self : provider) (ext : externals)
    (tags sys_tags : option (list string)) : gmap string jval :=
  let user := get_username ext in
  list_to_map
    [("flow_id", JScalar (Py.Str (_flow_name self)));
     ("user_name", JScalar (Py.Str user));
     ("tags", JTags (if truthy tags then default [] tags else []));
     ("system_tags", JTags (if truthy sys_tags then default [] sys_tags else []));
     ("ts_epoch", JScalar (Py.Int (time_ms ext 0)))].

Definition _flow_to_json (self : provider) (ext : externals) : gmap string jval :=
  list_to_map
    [("flow_id", JScalar (Py.Str (_flow_name self)));
     ("ts_epoch", JScalar (Py.Int (time_ms ext 0)))].

Definition _run_to_json (self : provider) (ext : externals) (run_id : val)
    (tags sys_tags : option (list string)) : gmap string jval :=
  let d : gmap string jval :=
    match run_id with
    | Py.None_ => ∅
    | _ => list_to_map [("run_number", JScalar run_id)]
    end in
  dict_update d (_all_obj_elements self ext tags sys_tags).

Definition _step_to_json (self : provider) (ext : externals) (run_id step_name : val)
    (tags sys_tags : option (list string)) : gmap string jval :=
  let d : gmap string jval :=
    list_to_map [("run_number", JScalar run_id); ("step_name", JScalar step_name)] in
  dict_update d (_all_obj_elements self ext tags sys_tags).

Definition _task_to_json (self : provider) (ext : externals)
    (run_id step_name task_id : val) (tags sys_tags : option (list string))
    : gmap string jval :=
  let d : gmap string jval :=
    list_to_map [("run_number", JScalar run_id); ("step_name", JScalar step_name)] in
  let d :=
    match task_id with
    | Py.None_ => d
    | _ => <["task_id" := JScalar task_id]> d
    end in
  dict_update d (_all_obj_elements self ext tags sys_tags).

Definition _object_to_json (self : provider) (ext : externals) (obj_type : string)
    (run_id step_name task_id : val) (tags sys_tags : option (list string))
    : gmap string jval :=
  if bool_decide (obj_type = "task") then
    _task_to_json self ext run_id step_name task_id tags sys_tags
  else if bool_decide (obj_type = "step") then
    _step_to_json self ext run_id step_name tags sys_tags
  else if bool_decide (obj_type = "run") then
    _run_to_json self ext run_id tags sys_tags
  else _flow_to_json self ext.

End ObjectJson.

(** ** The provider information [INFO] *)

Section ProviderInfo.

(** The class methods [compute_info] and [default_info], which a provider
    overrides. *)
Variable compute_info : string -> string.
Variable default_info : string.

(** [_get_info] on the class attribute [_INFO] ([None] until it is set):
    the value returned and the attribute afterwards. *)
Definition _get_info (_INFO : option string) : string * option string :=
  match _INFO with
  | Some s =>
      if bool_decide (s = "") then (default_info, Some default_info)
      else (s, Some s)
  | None => (default_info, Some default_info)
  end.

Definition _set_info (val : string) (_INFO : option string) : option string :=
  Some (compute_info val).

End ProviderInfo.

(** ** [_register_code_package_metadata] *)

(** ["{0}".format(v)]. *)
Definition format0 (v : val) : string :=
  match v with
  | Py.Int z => pretty z
  | Py.Str s => s
  | Py.None_ => "None"
  end.

(** The arguments of one call of [register_metadata]. *)
Record register_call := RegisterCall {
  rc_run_id : val;
  rc_step_name : string;
  rc_task_id : val;
  rc_metadata : list MetaDatum.t
}.

Section CodePackage.

(** [json.dumps] of a dict of strings, [None] for a null value. *)
Variable json_dumps : list (string * option string) -> string.

(** The call of [register_metadata] the method makes, [None] when it makes
    none; [environ] is [os.environ]. *)
Definition _register_code_package_metadata (environ : gmap string string)
    (run_id : val) (step_name : string) (task_id attempt : val)
    : option register_call :=
  let metadata : list MetaDatum.t := [] in
  let code_sha := environ !! "METAFLOW_CODE_SHA" in
  let code_url := environ !! "METAFLOW_CODE_URL" in
  let code_ds := environ !! "METAFLOW_CODE_DS" in
  let metadata :=
    match code_sha with
    | Some sha =>
        if bool_decide (sha ≠ "") then
          metadata ++
            [MetaDatum.mk "code-package"
               (Py.Str (json_dumps [("ds_type", code_ds); ("sha", code_sha);
                                    ("location", code_url)]))
               "code-package"
               (Some ["attempt_id:" +:+ format0 attempt])]
        else metadata
    | None => metadata
    end in
  if truthy (Some metadata) then
    Some (RegisterCall run_id step_name task_id metadata)
  else None.

End CodePackage.

(** Objects of a backend that stores no tag lists, named by a string. *)
#[local] Instance bare_tagged : Tagged string :=
  {| get_tags := fun _ => None; get_system_tags := fun _ => None |}.

(** ** Rule names of the event bridge client
       ([plugins/aws/step_functions/event_bridge_client.py]) *)

(** [s[:n]]. *)
Fixpoint str_take (n : nat) (s : string) : string :=
  match n, s with
  | S n', String c s' => String c (str_take n' s')
  | _, _ => EmptyString
  end.

(** [c.lower()] for an ASCII character. *)
Definition ascii_lower (c : ascii) : ascii :=
  let n := nat_of_ascii c in
  if ((65 <=? n)%nat && (n <=? 90)%nat)%bool then ascii_of_nat (n + 32) else c.

Fixpoint str_lower (s : string) : string :=
  match s with
  | EmptyString => EmptyString
  | String c s' => String (ascii_lower c) (str_lower s')
  end.

Section EventBridge.

(** [to_unicode(base64.b32encode(sha1(to_bytes(name)).digest()))], the
    digest of the name as ASCII text. *)
Variable b32_sha1 : string -> string.

(** The function [format] of the module. *)
Definition format (name : string) : string :=
  if (String.length name <=? 64)%nat then name
  else
    let name_hash := str_lower (str_take 16 (b32_sha1 name)) in
    str_take 47 name +:+ "-" +:+ name_hash.

End EventBridge.

(** ** Retrying an operation
       ([plugins/env_escape/communication/utils.py]) *)

(** What one call [op( *args)] does. *)
Inductive op_outcome (R : Type) :=
| OpReturns (r : R)
| OpTimeout
| OpRaises (e : string).
Arguments OpReturns {R} r.
Arguments OpTimeout {R}.
Arguments OpRaises {R} e.

(** How [__try_op__] ends. *)
Inductive try_result (R : Type) :=
| TryReturns (r : R)
| TryTimeout (msg : string)
| TryRaises (e : string).
Arguments TryReturns {R} r.
Arguments TryTimeout {R} msg.
Arguments TryRaises {R} e.

Section TryOp.
Context {R : Type}.

(** [op k] is the outcome of the [k]-th call of the operation, counted
    from 0. *)
Variable op : nat -> op_outcome R.

(** The loop [for _ in range(retries)] from its [k]-th call on, with
    [remaining] rounds to go: how it leaves, if it does, and the number of
    calls made in all. *)
Fixpoint try_loop (k remaining : nat) : option (try_result R) * nat :=
  match remaining with
  | O => (None, k)
  | S remaining' =>
      match op k with
      | OpReturns r => (Some (TryReturns r), S k)
      | OpTimeout => try_loop (S k) remaining'
      | OpRaises e => (Some (TryRaises e), S k)
      end
  end.

Definition __try_op__ (op_name : string) (retries : Z) : try_result R * nat :=
  match try_loop 0 (Z.to_nat retries) with
  | (Some res, calls) => (res, calls)
  | (None, calls) =>
      (TryTimeout ("Timeout after " +:+ pretty retries +:+ " retries on operation '"
                   +:+ op_name +:+ "'"), calls)
  end.

End TryOp.

(** An environment with a code package. *)
Definition sample_environ : gmap string string :=
  list_to_map [("METAFLOW_CODE_SHA", "0a1b"); ("METAFLOW_CODE_DS", "s3")].

(** A stand-in for [json.dumps] in the examples: the values, one after the
    other. *)
Definition sample_json_dumps (d : list (string * option string)) : string :=
  String.concat "," (map (fun kv => default "null" kv.2) d).

(** Tagged records among which an ['attempt'] record holds a value that is
    no integer; a legacy record of that kind; and a legacy ['attempt'] record
    written before the epoch. *)
Definition sample_tagged_bad_value : list Md.t :=
  [sample_md "x" (Py.Str "a") 150 (Some ["attempt_id:0"]);
   sample_md "attempt" (Py.Str "first") 100 (Some ["attempt_id:0"])].

Definition sample_legacy_bad_value : list Md.t :=
  [sample_md "attempt" (Py.Str "first") 100 None].

Definition sample_legacy_negative_start : list Md.t :=
  [sample_md "attempt" (Py.Str "0") (-5) None].

(** * Properties *)

(** ** The tag filter *)

Section ApplyFilterFacts.
Context {A : Type} `{Tagged A}.
Implicit Types (elts : list A) (items : list (string * string)).

Lemma filter_nothing (P : A → Prop) `{!∀ x, Decision (P x)} elts :
  (∀ x, ¬ P x) → filter P elts = [].
Proof.
  intros HP. induction elts as [|x l IH]; [done|].
  rewrite filter_cons_False; auto.
Qed.

Lemma filter_step_keeps elts item : filter_step elts item = filter (keeps item) elts.
Proof.
  destruct item as [key value]. unfold filter_step.
  repeat case_bool_decide; subst; try discriminate; simpl.
  - apply list_filter_iff. intros obj. unfold keeps; simpl. intuition discriminate.
  - apply list_filter_iff. intros obj. unfold keeps; simpl. intuition discriminate.
  - apply list_filter_iff. intros obj. unfold keeps; simpl. intuition discriminate.
  - symmetry. apply filter_nothing. intros obj. unfold keeps; simpl. intuition congruence.
Qed.

(** The pipeline is one pass that keeps the objects passing every item. *)
Lemma apply_filter_Forall elts items :
  _apply_filter elts (Some items) = filter (fun obj => Forall (fun it => keeps it obj) items) elts.
Proof.
  unfold _apply_filter. revert elts.
  induction items as [|it items IH]; intros elts; simpl.
  - symmetry. induction elts as [|x l IHl]; [done|].
    rewrite filter_cons_True; [by f_equal | constructor].
  - rewrite IH, filter_step_keeps, list_filter_filter.
    apply list_filter_iff. intros obj. rewrite Forall_cons. tauto.
Qed.

End ApplyFilterFacts.

Section ApplyFilterProperties.
Context {A : Type} `{Tagged A}.
Implicit Types (elts : list A) (items : list (string * string)).

(** C7: with [filters] absent ([None]) or empty, [_apply_filter] returns the
    input list unchanged. *)
Theorem apply_filter_identity elts :
  _apply_filter elts None = elts ∧ _apply_filter elts (Some []) = elts.
Proof. split; reflexivity. Qed.

(** C10: as soon as the filters mapping holds a kind other than [any_tags],
    [tags], [system_tags], the result is the empty list, whatever the other
    items and the records are. *)
Theorem apply_filter_unknown_kind elts items key value :
  (key, value) ∈ items →
  key ∉ ["any_tags"; "tags"; "system_tags"] →
  _apply_filter elts (Some items) = [].
Proof.
  intros Hin Hkey. rewrite apply_filter_Forall.
  apply filter_nothing. intros obj Hall.
  rewrite Forall_forall in Hall. specialize (Hall _ Hin).
  unfold keeps in Hall; simpl in Hall.
  apply Hkey. destruct Hall as [[-> _]|[[-> _]|[-> _]]]; simpl;
    repeat first [apply list_elem_of_here | apply list_elem_of_further].
Qed.

(** C6: the result does not depend on the order of the items of the filters
    mapping; filtering on [tags] and [system_tags] together keeps exactly the
    objects each single filter keeps; [tags] tests the user tags,
    [system_tags] the system tags, [any_tags] both. *)
Theorem apply_filter_order_independent elts :
  (∀ items items', items ≡ₚ items' →
     _apply_filter elts (Some items) = _apply_filter elts (Some items'))
  ∧ (∀ a b obj,
       obj ∈ _apply_filter elts (Some [("tags", a); ("system_tags", b)])
       ↔ obj ∈ _apply_filter elts (Some [("tags", a)])
         ∧ obj ∈ _apply_filter elts (Some [("system_tags", b)]))
  ∧ (∀ v obj, obj ∈ _apply_filter elts (Some [("tags", v)])
              ↔ obj ∈ elts ∧ v ∈ default [] (get_tags obj))
  ∧ (∀ v obj, obj ∈ _apply_filter elts (Some [("system_tags", v)])
              ↔ obj ∈ elts ∧ v ∈ default [] (get_system_tags obj))
  ∧ (∀ v obj, obj ∈ _apply_filter elts (Some [("any_tags", v)])
              ↔ obj ∈ elts ∧ (v ∈ default [] (get_tags obj)
                              ∨ v ∈ default [] (get_system_tags obj))).
Proof.
  assert (Hone : ∀ it obj, obj ∈ _apply_filter elts (Some [it]) ↔ obj ∈ elts ∧ keeps it obj).
  { intros it obj. rewrite apply_filter_Forall, list_elem_of_filter, Forall_singleton. tauto. }
  split; [|split; [|split; [|split]]].
  - intros items items' Hperm. rewrite !apply_filter_Forall.
    apply list_filter_iff. intros obj. by rewrite Hperm.
  - intros a b obj. rewrite !Hone, apply_filter_Forall, list_elem_of_filter.
    rewrite !Forall_cons, Forall_nil. tauto.
  - intros v obj. rewrite Hone. unfold keeps; simpl. intuition discriminate.
  - intros v obj. rewrite Hone. unfold keeps; simpl. intuition discriminate.
  - intros v obj. rewrite Hone. unfold keeps; simpl. intuition discriminate.
Qed.

End ApplyFilterProperties.

Lemma apply_filter_unknown_kind_witness :
  (("bogus", "x") ∈ [("tags", "a"); ("bogus", "x")])
  ∧ ("bogus" ∉ ["any_tags"; "tags"; "system_tags"])
  ∧ _apply_filter sample_arts (Some [("tags", "a"); ("bogus", "x")]) = [].
Proof.
  assert (Hin : ("bogus", "x") ∈ [("tags", "a"); ("bogus", "x")]) 
    by (apply (bool_decide_unpack _); vm_compute; exact I).
  assert (Hout : "bogus" ∉ ["any_tags"; "tags"; "system_tags"]) 
    by (apply (bool_decide_unpack _); vm_compute; exact I).
  split; [exact Hin|]. split; [exact Hout|].
  exact (apply_filter_unknown_kind sample_arts _ "bogus" "x" Hin Hout).
Defined.

Lemma apply_filter_order_independent_witness :
  [("tags", "a"); ("system_tags", "b")] ≡ₚ [("system_tags", "b"); ("tags", "a")]
  ∧ _apply_filter sample_arts (Some [("tags", "a"); ("system_tags", "b")])
    = _apply_filter sample_arts (Some [("system_tags", "b"); ("tags", "a")]).
Proof.
  assert (Hp : [("tags", "a"); ("system_tags", "b")] ≡ₚ [("system_tags", "b"); ("tags", "a")])
    by apply perm_swap.
  split; [exact Hp|].
  exact (proj1 (apply_filter_order_independent sample_arts) _ _ Hp).
Defined.

(** ** Attempt reconstruction *)

Section Digits.

Lemma digit_char c :
  Py.is_digit c = true →
  Py.is_space c = false ∧ c ≠ "-"%char ∧ c ≠ "+"%char.
Proof.
  destruct c as [[] [] [] [] [] [] [] []]; vm_compute; intros; try discriminate;
    repeat split; congruence.
Qed.

Lemma int_digits_all g : ∀ acc prev,
  all_digits g → g ≠ "" ∨ prev = true →
  Py.int_digits acc prev (list_ascii_of_string g) = Some (decimal acc g).
Proof.
  induction g as [|c g IH]; intros acc prev Hd Hne; simpl.
  - destruct Hne as [?| ->]; [congruence | reflexivity].
  - apply Forall_cons in Hd as [Hc Hd]. rewrite Hc.
    apply IH; [exact Hd | by right].
Qed.

Lemma lstrip_digit c l : Py.is_digit c = true → Py.lstrip (c :: l) = c :: l.
Proof. intros Hc. simpl. by destruct (digit_char c Hc) as [-> _]. Qed.

Lemma strip_digits l :
  l ≠ [] → Forall (fun c => Py.is_digit c = true) l → Py.strip l = l.
Proof.
  intros Hne Hd. unfold Py.strip.
  destruct l as [|c l]; [done|].
  apply Forall_cons in Hd as Hd'. destruct Hd' as [Hc _].
  rewrite (lstrip_digit c l Hc).
  assert (Hr : Forall (fun c => Py.is_digit c = true) (rev (c :: l)))
    by (apply Forall_rev; exact Hd).
  destruct (rev (c :: l)) as [|x r] eqn:E.
  - apply (f_equal (@length _)) in E. rewrite length_rev in E. discriminate.
  - apply Forall_cons in Hr as [Hx _]. rewrite (lstrip_digit x r Hx).
    rewrite <- E. apply rev_involutive.
Qed.

(** [int] of a non-empty string of digits is the number it denotes. *)
Lemma int_of_digits g :
  g ≠ "" → all_digits g → Py.int (Py.Str g) = Py.Returns (decimal 0 g).
Proof.
  intros Hne Hd. unfold Py.int, Py.int_of_str.
  rewrite strip_digits; [| by destruct g | exact Hd].
  assert (Hi := int_digits_all g 0 false Hd (or_introl Hne)).
  destruct g as [|c g]; [done|]. simpl list_ascii_of_string in *.
  apply Forall_cons in Hd as [Hc _].
  destruct c as [[] [] [] [] [] [] [] []];
    try (vm_compute in Hc; discriminate Hc);
    cbv match; rewrite Hi; reflexivity.
Qed.

Lemma take_digits_all s : all_digits (take_digits s).
Proof.
  induction s as [|c s IH]; simpl; [constructor|].
  destruct (Py.is_digit c) eqn:Hc; [|constructor].
  unfold all_digits; simpl. constructor; assumption.
Qed.

Lemma strip_prefix_app p s rest : strip_prefix p s = Some rest → s = p +:+ rest.
Proof.
  revert s. induction p as [|a p IH]; intros s; simpl.
  - by intros [= ->].
  - destruct s as [|b s]; [discriminate|].
    destruct (Ascii.eqb a b) eqn:E; [|discriminate].
    apply Ascii.eqb_eq in E as ->. intros ->%IH. reflexivity.
Qed.

Lemma take_digits_app s : ∃ rest, s = take_digits s +:+ rest.
Proof.
  induction s as [|c s [rest IH]]; simpl; [by exists ""|].
  destruct (Py.is_digit c); [|by eexists].
  exists rest. change (String c s = String c (take_digits s +:+ rest)). by f_equal.
Qed.

(** What a match of [attempt_id_re] yields: the tag starts with
    [attempt_id:] followed by the non-empty digit string [group1]. *)
Lemma attempt_id_re_match_Some t group1 :
  attempt_id_re_match t = Some group1 →
  group1 ≠ "" ∧ all_digits group1 ∧ ∃ rest, t = "attempt_id:" +:+ group1 +:+ rest.
Proof.
  unfold attempt_id_re_match.
  destruct (strip_prefix "attempt_id:" t) as [rest|] eqn:Hp; [|discriminate].
  pose proof (take_digits_all rest) as Hd.
  destruct (take_digits_app rest) as [rest' Hr].
  destruct (take_digits rest) as [|c g] eqn:Hg; [discriminate|].
  intros [= <-]. split; [discriminate|]. split; [exact Hd|].
  exists rest'. apply strip_prefix_app in Hp. by rewrite Hp, Hr.
Qed.

Lemma strip_prefix_append p s : strip_prefix p (p +:+ s) = Some s.
Proof.
  induction p as [|a p IH]; [done|].
  change (strip_prefix (String a p) (String a (p +:+ s)) = Some s).
  simpl. by rewrite Ascii.eqb_refl.
Qed.

Lemma take_digits_append g rest :
  all_digits g →
  take_digits rest = "" →
  take_digits (g +:+ rest) = g.
Proof.
  intros Hd Hrest. induction g as [|c g IH]; [done|].
  apply Forall_cons in Hd as [Hc Hd].
  change (take_digits (String c (g +:+ rest)) = String c g).
  simpl. rewrite Hc. f_equal. by apply IH.
Qed.

(** Conversely, a tag made of the prefix [attempt_id:], a non-empty string
    of digits and a rest that does not go on with a digit matches, whatever
    the rest is. *)
Lemma attempt_id_re_match_intro group1 rest :
  group1 ≠ "" → all_digits group1 → take_digits rest = "" →
  attempt_id_re_match ("attempt_id:" +:+ group1 +:+ rest) = Some group1.
Proof.
  intros Hne Hd Hrest. unfold attempt_id_re_match.
  rewrite strip_prefix_append, (take_digits_append _ _ Hd Hrest).
  by destruct group1.
Qed.

Lemma take_digits_stop rest :
  take_digits rest = ""
  ↔ match rest with
    | String c _ => Py.is_digit c = false
    | EmptyString => True
    end.
Proof.
  destruct rest as [|c rest]; simpl; [done|].
  destruct (Py.is_digit c); split; intros; done.
Qed.

Lemma take_digits_split s :
  ∃ rest, s = take_digits s +:+ rest ∧ take_digits rest = "".
Proof.
  induction s as [|c s (rest & IH & Hrest)]; [by exists ""|].
  simpl. destruct (Py.is_digit c) eqn:Hc.
  - exists rest. split; [|done].
    change (String c s = String c (take_digits s +:+ rest)). by f_equal.
  - exists (String c s). split; [done|]. simpl. by rewrite Hc.
Qed.

(** The matcher of the code finds exactly the tags of the form
    [attempt_id:<int>], with the number they name. *)
Lemma attempt_tag_spec t n : attempt_tag t = Some n ↔ is_attempt_tag t n.
Proof.
  unfold attempt_tag, is_attempt_tag. split.
  - destruct (attempt_id_re_match t) as [g|] eqn:Hm; [|discriminate].
    intros [= <-]. pose proof Hm as (Hne & Hd & _)%attempt_id_re_match_Some.
    unfold attempt_id_re_match in Hm.
    destruct (strip_prefix "attempt_id:" t) as [s|] eqn:Hp; [|discriminate].
    destruct (take_digits_split s) as (rest & Hs & Hrest).
    assert (take_digits s = g) as Hg by (destruct (take_digits s); congruence).
    exists g, rest. apply strip_prefix_app in Hp.
    split; [by rewrite Hp, Hs, Hg|]. split; [done|]. split; [done|].
    split; [by apply take_digits_stop | done].
  - intros (g & rest & -> & Hne & Hd & Hrest%take_digits_stop & <-).
    by rewrite (attempt_id_re_match_intro g rest Hne Hd Hrest).
Qed.

End Digits.


Section Reconstruct.
Implicit Types (v : Md.t) (all_metadata : list Md.t) (st : scan_state).
#[local] Arguments Py.int : simpl never.

Lemma scan_tags_int all_tags group1 :
  scan_tags all_tags = Some group1 →
  Py.int (Py.Str group1) = Py.Returns (decimal 0 group1).
Proof.
  induction all_tags as [|t l IH]; simpl; [discriminate|].
  destruct (attempt_id_re_match t) as [g|] eqn:Hm; [|exact IH].
  intros [= <-]. apply attempt_id_re_match_Some in Hm as (Hne & Hd & _).
  by apply int_of_digits.
Qed.

Lemma scan_tags_head all_tags :
  decimal 0 <$> scan_tags all_tags = head (omap attempt_tag all_tags).
Proof.
  induction all_tags as [|t l IH]; simpl; [done|].
  unfold attempt_tag at 1.
  destruct (attempt_id_re_match t); simpl; [done | exact IH].
Qed.

Lemma explicit_attempt_scan v :
  explicit_attempt v = decimal 0 <$> scan_tags (default [] (Md.tags v)).
Proof. unfold explicit_attempt. by rewrite scan_tags_head. Qed.

(** A record is tagged with an attempt exactly when one of its tags is an
    [attempt_id:<int>] tag. *)
Lemma explicit_attempt_is_Some v :
  is_Some (explicit_attempt v)
  ↔ ∃ t, t ∈ default [] (Md.tags v) ∧ is_Some (attempt_tag t).
Proof.
  unfold explicit_attempt. induction (default [] (Md.tags v)) as [|t l IH]; simpl.
  - split; [intros [? [=]] | intros (? & []%not_elem_of_nil & _)].
  - destruct (attempt_tag t) as [n|] eqn:Ht; simpl.
    + split; [intros _ | by eauto]. exists t. rewrite Ht. split; [left | by eauto].
    + rewrite IH. split.
      * intros (t' & ? & ?). exists t'. split; [by right | done].
      * intros (t' & [->|?]%elem_of_cons & Hs); [|by eauto].
        rewrite Ht in Hs. by destruct Hs.
Qed.

Lemma scan_record_spec a st v :
  attempt_value_ok v →
  scan_record a st v =
    Py.Returns (ScanState
      (have_all_attempt_id st && bool_decide (is_Some (explicit_attempt v)))
      (starts_after (attempts_start st) [v])
      (post_filter_acc st ++ filter (fun v => explicit_attempt v = Some a) [v])).
Proof.
  intros Hok. unfold scan_record, starts_after, attempt_number; simpl.
  assert (Hstarts :
    (if bool_decide (Md.field_name v = "attempt")
     then Py.int (Md.value v) ≫= λ n, mret (<[n:=Md.ts_epoch v]> (attempts_start st))
     else mret (attempts_start st))
    = Py.Returns
        (match (if bool_decide (Md.field_name v = "attempt")
                then match Py.int (Md.value v) with
                     | Py.Returns n => Some n
                     | Py.Raises _ => None
                     end
                else None) with
         | Some n => <[n:=Md.ts_epoch v]> (attempts_start st)
         | None => attempts_start st
         end)).
  { case_bool_decide as Hf; [|done]. destruct (Hok Hf) as [n ->]. done. }
  rewrite Hstarts. clear Hstarts. cbn [mbind result_bind Py.bind].
  rewrite filter_cons, filter_nil, (explicit_attempt_scan v).
  destruct (scan_tags (default [] (Md.tags v))) as [g|] eqn:Hg.
  - rewrite (scan_tags_int _ _ Hg). simpl.
    rewrite andb_true_r. f_equal. f_equal.
    case_bool_decide as Hn; case_decide as Hn'; rewrite ?app_nil_r; try done.
    + congruence.
    + by injection Hn'.
  - simpl. rewrite andb_false_r, app_nil_r. done.
Qed.

(** The loop never raises on well-formed records; it leaves the flag, the
    table of attempt starts and the explicitly tagged selection. *)
Lemma scan_all_spec a all_metadata : ∀ st,
  Forall attempt_value_ok all_metadata →
  scan_all a st all_metadata =
    Py.Returns (ScanState
      (have_all_attempt_id st
       && bool_decide (Forall (fun v => is_Some (explicit_attempt v)) all_metadata))
      (starts_after (attempts_start st) all_metadata)
      (post_filter_acc st ++ filter (fun v => explicit_attempt v = Some a) all_metadata)).
Proof.
  induction all_metadata as [|v l IH]; intros st Hok.
  - destruct st; simpl. by rewrite andb_true_r, app_nil_r.
  - apply Forall_cons in Hok as [Hv Hl]. simpl scan_all.
    rewrite (scan_record_spec a st v Hv). cbn [mbind result_bind Py.bind].
    rewrite (IH _ Hl). cbn [have_all_attempt_id attempts_start post_filter_acc].
    f_equal. f_equal.
    + rewrite <- andb_assoc. f_equal. rewrite <- bool_decide_and.
      apply bool_decide_ext. by rewrite Forall_cons.
    + rewrite <- app_assoc, <- filter_app. done.
Qed.

Lemma starts_after_lookup all_metadata n : ∀ m : gmap Z Z,
  starts_after m all_metadata !! n =
    match attempt_start all_metadata n with
    | Some ts => Some ts
    | None => m !! n
    end.
Proof.
  unfold attempt_start.
  induction all_metadata as [|v l IH]; intros m; [done|].
  change (starts_after m (v :: l))
    with (starts_after (match attempt_number v with
                        | Some k => <[k:=Md.ts_epoch v]> m
                        | None => m
                        end) l).
  rewrite IH. simpl omap.
  destruct (attempt_number v) as [k|] eqn:Hk.
  - case_bool_decide as Hkn.
    + injection Hkn as ->. rewrite last_cons, lookup_insert_eq.
      by destruct (last _).
    + rewrite lookup_insert_ne; [done | congruence].
  - rewrite bool_decide_false; [done | discriminate].
Qed.

(** [attempt_start] finds nothing exactly when no ['attempt'] record
    announces [n]. *)
Lemma attempt_start_None all_metadata n :
  attempt_start all_metadata n = None
  ↔ ∀ v, v ∈ all_metadata → attempt_number v ≠ Some n.
Proof.
  unfold attempt_start. induction all_metadata as [|v l IH]; simpl.
  - split; [intros _ ? []%not_elem_of_nil | done].
  - case_bool_decide as Hv.
    + rewrite last_cons. split.
      * by destruct (last _).
      * intros Hall. destruct (Hall v); [left | done].
    + rewrite IH. split.
      * intros Hall w [->|?]%elem_of_cons; auto.
      * intros Hall w ?. apply Hall. by right.
Qed.

Lemma attempt_start_Some all_metadata n ts :
  attempt_start all_metadata n = Some ts →
  ∃ v, v ∈ all_metadata ∧ attempt_number v = Some n ∧ Md.ts_epoch v = ts.
Proof.
  unfold attempt_start. induction all_metadata as [|v l IH]; simpl; [discriminate|].
  case_bool_decide as Hv.
  - rewrite last_cons. destruct (last _) as [y|] eqn:Hl.
    + intros [= <-]. destruct (IH eq_refl) as (w & ? & ? & ?).
      exists w. split; [by right | done].
    + intros [= <-]. exists v. split; [left | done].
  - intros (w & ? & ?)%IH. exists w. split; [by right | done].
Qed.

Lemma attempt_number_field v n : attempt_number v = Some n → Md.field_name v = "attempt".
Proof. unfold attempt_number. by case_bool_decide. Qed.

(** What [_reconstruct_metadata_for_attempt] returns on well-formed
    records, in both of its branches. *)
Lemma reconstruct_spec all_metadata a :
  Forall attempt_value_ok all_metadata →
  _reconstruct_metadata_for_attempt all_metadata a =
    Py.Returns
      (if bool_decide (Forall (fun v => is_Some (explicit_attempt v)) all_metadata) then
         filter (fun v => explicit_attempt v = Some a) all_metadata
       else
         let start_ts := default (-1) (attempt_start all_metadata a) in
         if bool_decide (start_ts < 0) then []
         else
           filter (fun v => Md.ts_epoch v >= start_ts
                            ∧ Md.ts_epoch v < default year_3000
                                                (attempt_start all_metadata (a + 1)))
                  all_metadata).
Proof.
  intros Hok. unfold _reconstruct_metadata_for_attempt.
  rewrite (scan_all_spec a all_metadata scan_init Hok).
  cbn [mbind result_bind Py.bind scan_init have_all_attempt_id attempts_start
       post_filter_acc andb app].
  rewrite !starts_after_lookup, !lookup_empty.
  destruct (bool_decide (Forall _ all_metadata)); cbn [negb]; [done|].
  assert (Hd : ∀ k d, default d (match attempt_start all_metadata k with
                                 | Some ts => Some ts
                                 | None => None
                                 end) = default d (attempt_start all_metadata k))
    by (intros k d; by destruct (attempt_start all_metadata k)).
  rewrite !Hd. unfold year_3000. by case_bool_decide.
Qed.

(** Whatever the records hold, one iteration appends at most the record it
    looks at. *)
Lemma scan_record_acc a st v st' :
  scan_record a st v = Py.Returns st' →
  post_filter_acc st' = post_filter_acc st
  ∨ post_filter_acc st' = post_filter_acc st ++ [v].
Proof.
  unfold scan_record.
  destruct (bool_decide (Md.field_name v = "attempt"));
    [destruct (Py.int (Md.value v)); [|discriminate]|];
    cbn [mbind result_bind Py.bind mret result_ret];
    (destruct (scan_tags _); [destruct (Py.int _); [|discriminate]|]);
    cbn [mbind result_bind Py.bind mret result_ret];
    intros [= <-]; cbn [post_filter_acc]; try case_bool_decide; auto.
Qed.

Lemma scan_all_acc a all_metadata : ∀ st st',
  scan_all a st all_metadata = Py.Returns st' →
  ∃ kept, post_filter_acc st' = post_filter_acc st ++ kept
          ∧ kept `sublist_of` all_metadata.
Proof.
  induction all_metadata as [|v l IH]; intros st st'; simpl.
  - intros [= <-]. exists []. by rewrite app_nil_r.
  - destruct (scan_record a st v) as [st1|] eqn:H1; [|discriminate].
    cbn [mbind result_bind Py.bind]. intros (kept & Hk & Hs)%IH.
    destruct (scan_record_acc _ _ _ _ H1) as [E|E]; rewrite E in Hk.
    + exists kept. split; [done | by apply sublist_cons].
    + exists (v :: kept). rewrite <- app_assoc in Hk.
      split; [done | by apply sublist_skip].
Qed.

Lemma reconstruct_sublist all_metadata a out :
  _reconstruct_metadata_for_attempt all_metadata a = Py.Returns out →
  out `sublist_of` all_metadata.
Proof.
  unfold _reconstruct_metadata_for_attempt.
  destruct (scan_all a scan_init all_metadata) as [st|] eqn:Hscan; [|discriminate].
  cbn [mbind result_bind Py.bind].
  apply scan_all_acc in Hscan as (kept & Hk & Hs). cbn in Hk.
  destruct (negb (have_all_attempt_id st)).
  - cbn zeta. case_bool_decide; intros [= <-].
    + apply sublist_nil_l.
    + apply sublist_filter.
  - intros [= <-]. by rewrite Hk.
Qed.

Lemma first_attempt_tag_spec (all_tags : list string) n :
  head (omap attempt_tag all_tags) = Some n
  ↔ ∃ before t after,
      all_tags = before ++ t :: after
      ∧ (∀ t' m, t' ∈ before → ¬ is_attempt_tag t' m)
      ∧ is_attempt_tag t n.
Proof.
  induction all_tags as [|t0 l IH]; simpl.
  - split; [discriminate|]. intros (before & t & after & Hl & _).
    by destruct before.
  - destruct (attempt_tag t0) as [m|] eqn:H0; simpl.
    + split.
      * intros [= ->]. exists [], t0, l. split; [done|].
        split; [by intros ? ? ?%elem_of_nil | by apply attempt_tag_spec].
      * intros ([|b bs] & t & after & Hl & Hnone & Ht).
        -- injection Hl as <- _. apply attempt_tag_spec in Ht. congruence.
        -- injection Hl as <- _. destruct (Hnone t0 m); [left|].
           by apply attempt_tag_spec.
    + rewrite IH. split.
      * intros (before & t & after & -> & Hnone & Ht).
        exists (t0 :: before), t, after. split; [done|]. split; [|done].
        intros t' m [->|Hin]%elem_of_cons; [|by apply Hnone].
        intros Hm%attempt_tag_spec. congruence.
      * intros ([|b bs] & t & after & Hl & Hnone & Ht).
        -- injection Hl as <- _. apply attempt_tag_spec in Ht. congruence.
        -- injection Hl as _ ->. exists bs, t, after. split; [done|].
           split; [|done]. intros t' m Hin. apply Hnone. by right.
Qed.

(** The attempt the loop reads in a record is the attempt the record is
    tagged with. *)
Lemma explicit_attempt_spec v n : explicit_attempt v = Some n ↔ tagged_with v n.
Proof. apply first_attempt_tag_spec. Qed.

Lemma has_attempt_tag_spec v :
  (∃ t, t ∈ default [] (Md.tags v) ∧ is_Some (attempt_tag t))
  ↔ ∃ t n, t ∈ default [] (Md.tags v) ∧ is_attempt_tag t n.
Proof.
  split.
  - intros (t & Ht & n & Hn). exists t, n. split; [done | by apply attempt_tag_spec].
  - intros (t & n & Ht & Hn). exists t. split; [done|]. exists n. by apply attempt_tag_spec.
Qed.

(** So the value [get_object] hands back for a metadata query is a selection
    of what the backend returned. *)
Lemma finish_sublist post pre_filter out :
  finish post pre_filter = Py.Returns out → out `sublist_of` pre_filter.
Proof.
  destruct post as [|n]; simpl.
  - by intros [= <-].
  - apply reconstruct_sublist.
Qed.

End Reconstruct.

Section ReconstructProperties.
Implicit Types (v : Md.t) (all_metadata : list Md.t) (st : scan_state).
#[local] Arguments Py.int : simpl never.

(** C2, as the code has it: when every record carries a tag of the form
    [attempt_id:<int>] and the value of every ['attempt'] record converts to
    an integer, the result is the list of the records tagged with
    [attempt_id] (the first such tag of a record counts), in input order;
    the loop ends with [have_all_attempt_id] still true, so the timestamp
    window is not used. *)
Theorem reconstruct_explicit_tags all_metadata attempt_id :
  Forall attempt_value_ok all_metadata →
  Forall (fun v => ∃ t n, t ∈ default [] (Md.tags v) ∧ is_attempt_tag t n) all_metadata →
  ∃ out,
    _reconstruct_metadata_for_attempt all_metadata attempt_id = Py.Returns out
    ∧ out = filter (fun v => explicit_attempt v = Some attempt_id) all_metadata
    ∧ out `sublist_of` all_metadata
    ∧ (∀ v, v ∈ out ↔ v ∈ all_metadata ∧ tagged_with v attempt_id)
    ∧ (∀ v n, explicit_attempt v = Some n ↔ tagged_with v n)
    ∧ ∃ st, scan_all attempt_id scan_init all_metadata = Py.Returns st
            ∧ have_all_attempt_id st = true
            ∧ post_filter_acc st = out.
Proof.
  intros Hok Htag.
  assert (Hall : Forall (fun v => is_Some (explicit_attempt v)) all_metadata).
  { eapply Forall_impl; [exact Htag|]. intros v Hv.
    by apply explicit_attempt_is_Some, has_attempt_tag_spec. }
  eexists. split; [|split; [reflexivity|]].
  { rewrite (reconstruct_spec _ _ Hok). by rewrite bool_decide_true. }
  split; [apply sublist_filter|]. split.
  { intros v. rewrite list_elem_of_filter, explicit_attempt_spec. tauto. }
  split; [apply explicit_attempt_spec|].
  eexists. split; [apply (scan_all_spec _ _ _ Hok)|].
  cbn [have_all_attempt_id post_filter_acc scan_init andb app].
  split; [by rewrite bool_decide_true | done].
Qed.

(** C3, as the code has it: when some record carries no tag of the form
    [attempt_id:<int>] and the value of every ['attempt'] record converts to
    an integer, the tagged selection is dropped.  Without an ['attempt']
    record for [attempt_id] the result is the empty list, not an error.
    Otherwise the start of the attempt is the timestamp of its last
    ['attempt'] record: a negative start again gives the empty list, and any
    other start gives the records whose timestamp lies in the window from
    that start to the start of [attempt_id + 1], or to the year 3000 when
    that attempt has no record. *)
Theorem reconstruct_window all_metadata attempt_id :
  Forall attempt_value_ok all_metadata →
  (∃ v, v ∈ all_metadata ∧ ∀ t n, t ∈ default [] (Md.tags v) → ¬ is_attempt_tag t n) →
  ((∀ v, v ∈ all_metadata → attempt_number v ≠ Some attempt_id) →
     _reconstruct_metadata_for_attempt all_metadata attempt_id = Py.Returns [])
  ∧ ((∃ v, v ∈ all_metadata ∧ attempt_number v = Some attempt_id) →
     ∃ start_ts,
       attempt_start all_metadata attempt_id = Some start_ts
       ∧ (∃ u, u ∈ all_metadata ∧ attempt_number u = Some attempt_id
               ∧ Md.ts_epoch u = start_ts)
       ∧ (start_ts < 0 →
          _reconstruct_metadata_for_attempt all_metadata attempt_id = Py.Returns [])
       ∧ (0 <= start_ts →
          _reconstruct_metadata_for_attempt all_metadata attempt_id
          = Py.Returns
              (filter (fun v => start_ts <= Md.ts_epoch v
                                ∧ Md.ts_epoch v < default year_3000
                                    (attempt_start all_metadata (attempt_id + 1)))
                      all_metadata))).
Proof.
  intros Hok (w & Hw & Hnotag).
  assert (Hnall : ¬ Forall (fun v => is_Some (explicit_attempt v)) all_metadata).
  { intros Hall. rewrite Forall_forall in Hall.
    apply Hall in Hw as [n Hn]. apply explicit_attempt_spec in Hn.
    destruct Hn as (before & t & after & Htags & _ & Ht).
    apply (Hnotag t n); [|done]. rewrite Htags, elem_of_app. right. left. }
  rewrite (reconstruct_spec _ _ Hok), (bool_decide_false _ Hnall). cbn zeta.
  split.
  - intros Hnone. apply attempt_start_None in Hnone. rewrite Hnone. done.
  - intros (v & Hv & Hn).
    destruct (attempt_start all_metadata attempt_id) as [start_ts|] eqn:Hs.
    + exists start_ts. split; [done|]. cbn [default from_option]. unfold id.
      split; [by apply attempt_start_Some|]. split.
      * intros Hneg. by rewrite bool_decide_true.
      * intros Hpos. rewrite bool_decide_false by lia. f_equal.
        apply list_filter_iff. intros r. lia.
    + exfalso. by apply (proj1 (attempt_start_None _ _) Hs v).
Qed.

End ReconstructProperties.

(** Checks a property of every record of a concrete list. *)
Ltac each_record tac :=
  repeat (apply Forall_cons; split; [tac|]); constructor.

Lemma is_attempt_tag_0 : is_attempt_tag "attempt_id:0" 0.
Proof. exists "0", "". repeat split; [discriminate | by repeat constructor]. Qed.

Lemma is_attempt_tag_1 : is_attempt_tag "attempt_id:1" 1.
Proof. exists "1", "". repeat split; [discriminate | by repeat constructor]. Qed.

Lemma reconstruct_explicit_tags_witness :
  _reconstruct_metadata_for_attempt sample_tagged 0
  = Py.Returns [sample_md "attempt" (Py.Str "0") 100 (Some ["attempt_id:0"]);
                sample_md "x" (Py.Str "a") 150 (Some ["attempt_id:0"])].
Proof.
  assert (Hok : Forall attempt_value_ok sample_tagged)
    by each_record ltac:(intros Hf; first [by vm_compute in Hf
                                          | eexists; vm_compute; reflexivity]).
  assert (Htag : Forall (fun v => ∃ t n, t ∈ default [] (Md.tags v) ∧ is_attempt_tag t n)
                        sample_tagged).
  { each_record ltac:(first [ exists "attempt_id:0", 0; split;
                                [left | exact is_attempt_tag_0]
                            | exists "attempt_id:1", 1; split;
                                [left | exact is_attempt_tag_1] ]). }
  destruct (reconstruct_explicit_tags sample_tagged 0 Hok Htag) as (out & Hout & -> & _).
  rewrite Hout. vm_compute. reflexivity.
Defined.

(** C2 as stated fails: every record of the list carries the tag
    [attempt_id:0], yet no list is returned, because the value of the
    ['attempt'] record is no integer. *)
Lemma reconstruct_tagged_bad_value_raises :
  Forall (fun v => ∃ t n, t ∈ default [] (Md.tags v) ∧ is_attempt_tag t n)
         sample_tagged_bad_value
  ∧ _reconstruct_metadata_for_attempt sample_tagged_bad_value 0
    = Py.Raises (Py.ValueError "invalid literal for int() with base 10")
  ∧ ∀ out, _reconstruct_metadata_for_attempt sample_tagged_bad_value 0 ≠ Py.Returns out.
Proof.
  split.
  { each_record ltac:(exists "attempt_id:0", 0; split; [left | exact is_attempt_tag_0]). }
  assert (Hr : _reconstruct_metadata_for_attempt sample_tagged_bad_value 0
               = Py.Raises (Py.ValueError "invalid literal for int() with base 10"))
    by (vm_compute; reflexivity).
  split; [exact Hr|]. intros out. rewrite Hr. discriminate.
Qed.

Lemma reconstruct_window_witness :
  _reconstruct_metadata_for_attempt sample_legacy 2 = Py.Returns []
  ∧ _reconstruct_metadata_for_attempt sample_legacy 1
    = Py.Returns [sample_md "attempt" (Py.Str "1") 500 None;
                  sample_md "x" (Py.Str "b") 600 (Some [])].
Proof.
  assert (Hok : Forall attempt_value_ok sample_legacy)
    by each_record ltac:(intros Hf; first [by vm_compute in Hf
                                          | eexists; vm_compute; reflexivity]).
  assert (Hlegacy : ∃ v, v ∈ sample_legacy
                         ∧ ∀ t n, t ∈ default [] (Md.tags v) → ¬ is_attempt_tag t n).
  { eexists. split; [left|]. intros t n Ht. vm_compute in Ht. by apply not_elem_of_nil in Ht. }
  split.
  - apply (proj1 (reconstruct_window sample_legacy 2 Hok Hlegacy)).
    apply attempt_start_None. vm_compute. reflexivity.
  - destruct (proj2 (reconstruct_window sample_legacy 1 Hok Hlegacy))
      as (start_ts & Hstart & _ & _ & Hwin).
    { eexists. split; [right; right; left | vm_compute; reflexivity]. }
    vm_compute in Hstart. injection Hstart as <-.
    rewrite Hwin by lia. vm_compute. reflexivity.
Defined.

(** C3 as stated fails, in two ways.  A legacy list whose only ['attempt']
    record holds a value that is no integer, asked for attempt 2: there is no
    ['attempt'] record for 2, yet an error comes out instead of the empty
    list.  A legacy list whose ['attempt'] record for 0 was written at
    timestamp [-5]: the record exists and lies in its own window, yet the
    empty list is returned. *)
Lemma reconstruct_legacy_not_window :
  ((∀ v, v ∈ sample_legacy_bad_value → attempt_number v ≠ Some 2)
   ∧ _reconstruct_metadata_for_attempt sample_legacy_bad_value 2
     = Py.Raises (Py.ValueError "invalid literal for int() with base 10"))
  ∧ (attempt_start sample_legacy_negative_start 0 = Some (-5)
     ∧ filter (fun v => -5 <= Md.ts_epoch v ∧ Md.ts_epoch v < year_3000)
              sample_legacy_negative_start
       = sample_legacy_negative_start
     ∧ _reconstruct_metadata_for_attempt sample_legacy_negative_start 0 = Py.Returns []).
Proof.
  split; [split|split; [|split]].
  - intros v ->%list_elem_of_singleton. vm_compute. discriminate.
  - vm_compute. reflexivity.
  - vm_compute. reflexivity.
  - vm_compute. reflexivity.
  - vm_compute. reflexivity.
Qed.

(** ** The hierarchy validator *)

Section GetObject.
Implicit Types (obj_type sub_type : string) (filters : filters_t) (attempt : val)
  (args : list val).

(** The table maps exactly the eight names, each to its position. *)
Lemma obj_order_lookup s n :
  obj_order !! s = Some n ↔
    (s = "root" ∧ n = 0) ∨ (s = "flow" ∧ n = 1) ∨ (s = "run" ∧ n = 2)
    ∨ (s = "step" ∧ n = 3) ∨ (s = "task" ∧ n = 4) ∨ (s = "artifact" ∧ n = 5)
    ∨ (s = "metadata" ∧ n = 6) ∨ (s = "self" ∧ n = 7).
Proof.
  unfold obj_order. rewrite !list_to_map_cons, list_to_map_nil.
  rewrite !lookup_insert_Some, lookup_empty.
  intuition (subst; try congruence).
Qed.

Lemma obj_order_names s : is_Some (obj_order !! s) ↔ s ∈ type_names.
Proof.
  unfold type_names, is_Some. rewrite !elem_of_cons, elem_of_nil. split.
  - intros [n Hn%obj_order_lookup]. tauto.
  - intros Hs.
    assert (∃ n, (s = "root" ∧ n = 0) ∨ (s = "flow" ∧ n = 1) ∨ (s = "run" ∧ n = 2)
      ∨ (s = "step" ∧ n = 3) ∨ (s = "task" ∧ n = 4) ∨ (s = "artifact" ∧ n = 5)
      ∨ (s = "metadata" ∧ n = 6) ∨ (s = "self" ∧ n = 7)) as [n Hn]
      by (repeat (destruct Hs as [->|Hs]; [eexists; tauto|]); done).
    exists n. by apply obj_order_lookup.
Qed.

(** The order of a name is its position in the hierarchy. *)
Lemma obj_order_position s n :
  obj_order !! s = Some n ↔ 0 <= n ∧ type_names !! Z.to_nat n = Some s.
Proof.
  rewrite obj_order_lookup. split.
  - intros Hs. repeat (destruct Hs as [[-> ->]|Hs]; [split; [lia | reflexivity]|]).
    destruct Hs as [-> ->]. split; [lia | reflexivity].
  - intros [Hn Hs].
    assert (Hlt : n < 8).
    { apply lookup_lt_Some in Hs. simpl in Hs. lia. }
    assert (Hc : n = 0 ∨ n = 1 ∨ n = 2 ∨ n = 3 ∨ n = 4 ∨ n = 5 ∨ n = 6 ∨ n = 7) by lia.
    repeat (destruct Hc as [->|Hc]; [injection Hs as <-; tauto|]).
    subst n. injection Hs as <-. tauto.
Qed.

Lemma valid_aggregation_dec obj_type sub_type :
  Decision (valid_aggregation obj_type sub_type).
Proof.
  unfold valid_aggregation.
  destruct (obj_order !! obj_type) as [a|] eqn:Ha;
    [|right; by intros (? & ? & [=] & _)].
  destruct (obj_order !! sub_type) as [b|] eqn:Hb;
    [|right; by intros (? & ? & _ & [=] & _)].
  destruct (decide (a <= 5 ∧ a < b ∧ (sub_type = "metadata" → obj_type = "task")))
    as [Hd|Hd].
  - left. exists a, b. tauto.
  - right. intros (? & ? & [= <-] & [= <-] & ?). tauto.
Qed.

Lemma valid_attempt_dec attempt : Decision (valid_attempt attempt).
Proof.
  unfold valid_attempt. destruct attempt as [|z|s].
  - left. by left.
  - destruct (decide (0 <= z)) as [Hz|Hz]; [left; right; by exists z|].
    right. intros [[=]|(m & [= <-] & ?)]. done.
  - unfold Py.int. destruct (Py.int_of_str s) as [z|].
    + destruct (decide (0 <= z)) as [Hz|Hz]; [left; right; by exists z|].
      right. intros [[=]|(m & [= <-] & ?)]. done.
    + right. intros [[=]|(m & [=] & ?)].
Qed.

Lemma check_attempt_valid attempt :
  valid_attempt attempt →
  check_attempt attempt
  = Py.Returns (match attempt with
                | Py.None_ => None
                | _ => match Py.int attempt with
                       | Py.Returns n => Some n
                       | Py.Raises _ => None
                       end
                end).
Proof.
  intros [->|(n & Hn & Hpos)]; [done|].
  unfold check_attempt. rewrite Hn.
  destruct attempt; [discriminate Hn| |]; by rewrite bool_decide_false by lia.
Qed.

Lemma check_attempt_invalid attempt :
  ¬ valid_attempt attempt →
  check_attempt attempt
  = Py.Raises (Py.ValueError "Attempt can only be a positive integer").
Proof.
  unfold valid_attempt, check_attempt. intros Hinv.
  destruct attempt as [|z|s]; [by destruct Hinv; left | |].
  - simpl. case_bool_decide; [done|]. destruct Hinv. right. exists z. split; [done | lia].
  - unfold Py.int in *. destruct (Py.int_of_str s) as [z|]; [|done].
    case_bool_decide; [done|]. destruct Hinv. right. exists z. split; [done | lia].
Qed.

(** Once the hierarchy rules hold, [get_object] is down to the attempt
    check and the call of the backend. *)
Lemma get_object_valid obj_type sub_type filters attempt args a b :
  obj_order !! obj_type = Some a → obj_order !! sub_type = Some b →
  a <= 5 → a < b → (sub_type = "metadata" → obj_type = "task") →
  get_object obj_type sub_type filters attempt args =
    match check_attempt attempt with
    | Py.Raises e => Raise e
    | Py.Returns attempt_int =>
        Fetch (FetchCall obj_type a sub_type b filters attempt_int args)
              (match attempt_int with
               | Some n => if bool_decide (b ≠ 6) then ReturnAsIs
                           else ReconstructForAttempt n
               | None => ReturnAsIs
               end)
    end.
Proof.
  intros Ha Hb H5 Hab Hmeta. unfold get_object. rewrite Ha, Hb.
  rewrite (bool_decide_false (a > 5)) by lia.
  rewrite (bool_decide_false (a >= b)) by lia.
  assert (bool_decide (sub_type = "metadata") && negb (bool_decide (obj_type = "task"))
          = false) as ->.
  { case_bool_decide as Hs; [|done]. by rewrite (bool_decide_true _ (Hmeta Hs)). }
  destruct (check_attempt attempt) as [[n|]|]; [|done..].
  by case_bool_decide.
Qed.

(** Every way of breaking a hierarchy rule, and the error raised for it:
    an unknown name, a container below [artifact], an aggregation that is
    not below its container, metadata from another level than a task. *)
Lemma get_object_hierarchy_errors obj_type sub_type filters attempt args :
  ¬ valid_aggregation obj_type sub_type →
  get_object obj_type sub_type filters attempt args ∈
    [Raise (Py.MetaflowInternalError ("Cannot find type " +:+ obj_type));
     Raise (Py.MetaflowInternalError ("Type " +:+ obj_type +:+ " is not allowed"));
     Raise (Py.MetaflowInternalError ("Cannot find subtype " +:+ sub_type));
     Raise (Py.MetaflowInternalError
              ("Subtype " +:+ sub_type +:+ " not allowed for " +:+ obj_type));
     Raise (Py.MetaflowInternalError "Metadata can only be retrieved at the task level")].
Proof.
  intros Hinv. unfold get_object.
  destruct (obj_order !! obj_type) as [a|] eqn:Ha; [|left].
  case_bool_decide as H5; [right; left|].
  destruct (obj_order !! sub_type) as [b|] eqn:Hb; [|do 2 right; left].
  case_bool_decide as Hab; [do 3 right; left|].
  destruct (bool_decide (sub_type = "metadata") && negb (bool_decide (obj_type = "task")))
    eqn:Hm; [do 4 right; left|].
  destruct Hinv. exists a, b. repeat split; try done; try lia.
  intros Hs. rewrite (bool_decide_true _ Hs) in Hm. simpl in Hm.
  by apply negb_false_iff, bool_decide_eq_true in Hm.
Qed.

End GetObject.

Section GetObjectProperties.
Implicit Types (obj_type sub_type : string) (filters : filters_t) (attempt : val)
  (args : list val).

(** C1, as the code has it: [get_object] calls the backend if and only if
    the pair is a legal aggregation (both names among the eight, container
    at most [artifact], container strictly above the aggregation, metadata
    only from a task) and the attempt is [None] or a non-negative integer.
    An illegal pair raises [MetaflowInternalError] and a legal pair with a
    bad attempt raises [ValueError], both without calling the backend. *)
Theorem get_object_delegates_iff obj_type sub_type filters attempt args :
  (calls_backend (get_object obj_type sub_type filters attempt args) = true
   ↔ valid_aggregation obj_type sub_type ∧ valid_attempt attempt)
  ∧ (¬ valid_aggregation obj_type sub_type →
     ∃ msg, get_object obj_type sub_type filters attempt args
            = Raise (Py.MetaflowInternalError msg))
  ∧ (valid_aggregation obj_type sub_type → ¬ valid_attempt attempt →
     get_object obj_type sub_type filters attempt args
     = Raise (Py.ValueError "Attempt can only be a positive integer")).
Proof.
  assert (Hbad : ¬ valid_aggregation obj_type sub_type →
     ∃ msg, get_object obj_type sub_type filters attempt args
            = Raise (Py.MetaflowInternalError msg)).
  { intros Hinv.
    pose proof (get_object_hierarchy_errors _ _ filters attempt args Hinv) as Hin.
    rewrite !elem_of_cons, elem_of_nil in Hin.
    destruct Hin as [E|[E|[E|[E|[E|[]]]]]]; rewrite E; by eexists. }
  assert (Hatt : valid_aggregation obj_type sub_type → ¬ valid_attempt attempt →
     get_object obj_type sub_type filters attempt args
     = Raise (Py.ValueError "Attempt can only be a positive integer")).
  { intros (a & b & Ha & Hb & H5 & Hab & Hm) Hinv.
    rewrite (get_object_valid _ _ _ _ _ a b) by done.
    by rewrite (check_attempt_invalid _ Hinv). }
  split; [|by split].
  destruct (valid_aggregation_dec obj_type sub_type) as [Hv|Hv].
  - destruct (valid_attempt_dec attempt) as [Ha|Ha].
    + split; [done|]. intros _.
      destruct Hv as (a & b & Hoa & Hob & H5 & Hab & Hm).
      rewrite (get_object_valid _ _ _ _ _ a b) by done.
      by rewrite (check_attempt_valid _ Ha).
    + rewrite (Hatt Hv Ha). simpl. split; [done | tauto].
  - destruct (Hbad Hv) as [msg ->]. simpl. split; [done | tauto].
Qed.

(** C5, as the code has it: the attempt is checked after the hierarchy.
    For a legal aggregation, an attempt that [int] rejects or turns into a
    negative integer makes [get_object] raise the [ValueError] of the attempt
    check without calling the backend; an attempt that is a non-negative
    integer, or [None], is passed on to the backend.  Whatever the pair, an
    acceptable attempt never makes [get_object] raise a [ValueError], and a
    bad attempt keeps [get_object] from calling the backend; for a pair that
    is no legal aggregation the error raised is the [MetaflowInternalError]
    of the hierarchy, whatever the attempt. *)
Theorem get_object_attempt_check obj_type sub_type filters attempt args :
  (valid_aggregation obj_type sub_type →
     (attempt ≠ Py.None_ →
      (∀ n, Py.int attempt = Py.Returns n → n < 0) →
      get_object obj_type sub_type filters attempt args
        = Raise (Py.ValueError "Attempt can only be a positive integer")
      ∧ calls_backend (get_object obj_type sub_type filters attempt args) = false)
     ∧ (∀ n, attempt ≠ Py.None_ → Py.int attempt = Py.Returns n → 0 <= n →
        ∃ call post, get_object obj_type sub_type filters attempt args = Fetch call post
                     ∧ fc_attempt call = Some n)
     ∧ (attempt = Py.None_ →
        ∃ call, get_object obj_type sub_type filters attempt args = Fetch call ReturnAsIs
                ∧ fc_attempt call = None))
  ∧ (valid_attempt attempt →
     ∀ msg, get_object obj_type sub_type filters attempt args ≠ Raise (Py.ValueError msg))
  ∧ (attempt ≠ Py.None_ →
     (∀ n, Py.int attempt = Py.Returns n → n < 0) →
     calls_backend (get_object obj_type sub_type filters attempt args) = false)
  ∧ (¬ valid_aggregation obj_type sub_type →
     ∃ msg, get_object obj_type sub_type filters attempt args
            = Raise (Py.MetaflowInternalError msg)).
Proof.
  assert (Hinvalid : attempt ≠ Py.None_ →
            (∀ n, Py.int attempt = Py.Returns n → n < 0) → ¬ valid_attempt attempt).
  { intros Hnone Hneg [?|(n & Hn & ?)]; [done|]. specialize (Hneg n Hn). lia. }
  split; [|split; [|split]].
  4: { intros Hagg.
       pose proof (get_object_hierarchy_errors _ _ filters attempt args Hagg) as Hin.
       rewrite !elem_of_cons, elem_of_nil in Hin.
       destruct Hin as [E|[E|[E|[E|[E|[]]]]]]; rewrite E; by eexists. }
  3: { intros Hnone Hneg.
       destruct (valid_aggregation_dec obj_type sub_type) as [Hagg|Hagg].
       - destruct Hagg as (a & b & Hoa & Hob & H5 & Hab & Hm).
         rewrite (get_object_valid _ _ _ _ _ a b) by done.
         by rewrite check_attempt_invalid by auto.
       - pose proof (get_object_hierarchy_errors _ _ filters attempt args Hagg) as Hin.
         rewrite !elem_of_cons, elem_of_nil in Hin.
         destruct Hin as [E|[E|[E|[E|[E|[]]]]]]; by rewrite E. }
  - intros (a & b & Hoa & Hob & H5 & Hab & Hm).
    rewrite (get_object_valid _ _ _ _ _ a b) by done.
    split; [|split].
    + intros Hnone Hneg.
      rewrite check_attempt_invalid; [done|].
      intros [?|(n & Hn & ?)]; [done|]. specialize (Hneg n Hn). lia.
    + intros n Hnone Hn Hpos.
      rewrite check_attempt_valid by (right; eauto). rewrite Hn.
      destruct attempt; [done|..]; eauto.
    + intros ->. simpl. eauto.
  - intros Hv msg.
    destruct (valid_aggregation_dec obj_type sub_type) as [Hagg|Hagg].
    + destruct Hagg as (a & b & Hoa & Hob & H5 & Hab & Hm).
      rewrite (get_object_valid _ _ _ _ _ a b) by done.
      by rewrite (check_attempt_valid _ Hv).
    + pose proof (get_object_hierarchy_errors _ _ filters attempt args Hagg) as Hin.
      rewrite !elem_of_cons, elem_of_nil in Hin.
      destruct Hin as [E|[E|[E|[E|[E|[]]]]]]; by rewrite E.
Qed.

End GetObjectProperties.

(** C1 as stated fails: the pair (root, flow) is a legal aggregation, yet with
    the attempt ["abc"] the backend is not called. *)
Lemma get_object_bad_attempt_not_delegated :
  ¬ (calls_backend (get_object "root" "flow" None (Py.Str "abc") []) = true
     ↔ valid_aggregation "root" "flow").
Proof.
  intros [_ Hcall].
  assert (Hv : valid_aggregation "root" "flow").
  { exists 0, 1. repeat split; try done. }
  specialize (Hcall Hv). vm_compute in Hcall. discriminate Hcall.
Qed.

Lemma get_object_delegates_iff_witness :
  valid_aggregation "task" "metadata" ∧ ¬ valid_attempt (Py.Str "-1")
  ∧ get_object "task" "metadata" None (Py.Str "-1") []
    = Raise (Py.ValueError "Attempt can only be a positive integer").
Proof.
  assert (Hv : valid_aggregation "task" "metadata").
  { exists 4, 6. repeat split; try done. }
  assert (Ha : ¬ valid_attempt (Py.Str "-1")).
  { intros [[=]|(n & Hn & Hpos)]. vm_compute in Hn. injection Hn as <-. lia. }
  split; [exact Hv|]. split; [exact Ha|].
  exact (proj2 (proj2 (get_object_delegates_iff "task" "metadata" None (Py.Str "-1") [])) Hv Ha).
Defined.

(** C5 as stated fails: the attempt ["abc"] is no integer, yet with the
    unknown type [bogus] the error raised is that of the hierarchy, not the
    [ValueError] of the attempt check. *)
Lemma get_object_bad_pair_before_attempt :
  (∀ n, Py.int (Py.Str "abc") ≠ Py.Returns n)
  ∧ get_object "bogus" "flow" None (Py.Str "abc") []
    = Raise (Py.MetaflowInternalError "Cannot find type bogus")
  ∧ ∀ msg, get_object "bogus" "flow" None (Py.Str "abc") [] ≠ Raise (Py.ValueError msg).
Proof.
  split; [intros n; vm_compute; discriminate|].
  split; [reflexivity|]. intros msg. vm_compute. discriminate.
Qed.

Lemma get_object_attempt_check_witness :
  valid_aggregation "task" "artifact"
  ∧ get_object "task" "artifact" None (Py.Str "abc") []
    = Raise (Py.ValueError "Attempt can only be a positive integer")
  ∧ calls_backend (get_object "task" "artifact" None (Py.Str "abc") []) = false.
Proof.
  assert (Hv : valid_aggregation "task" "artifact").
  { exists 4, 5. repeat split; try done. }
  split; [exact Hv|].
  apply (proj1 (proj1 (get_object_attempt_check "task" "artifact" None (Py.Str "abc") []) Hv)).
  - discriminate.
  - intros n Hn. vm_compute in Hn. discriminate Hn.
Defined.

(** ** Sticky tags and the record builders *)

Section RecordBuilderFacts.
Variable list_of_set : gset string → list string.
Hypothesis list_of_set_elements : ∀ X, list_of_set X ≡ₚ elements X.

Lemma elem_of_list_of_set X t : t ∈ list_of_set X ↔ t ∈ X.
Proof. rewrite list_of_set_elements. apply elem_of_elements. Qed.

Lemma all_obj_elements_tags self ext k tags sys_tags t :
  (t ∈ ObjElements.tags (_all_obj_elements list_of_set self ext k tags sys_tags) ↔ t ∈ tags)
  ∧ (t ∈ ObjElements.system_tags (_all_obj_elements list_of_set self ext k tags sys_tags)
     ↔ t ∈ sys_tags).
Proof.
  unfold _all_obj_elements; simpl. split.
  - case_bool_decide as He; [apply elem_of_list_of_set|].
    rewrite He, elem_of_nil. set_solver.
  - case_bool_decide as He; [apply elem_of_list_of_set|].
    rewrite He, elem_of_nil. set_solver.
Qed.

(** An artifact record carries the sticky tags of the provider at the time it
    is built, and nothing else. *)
Lemma artifacts_to_json_tags self ext run_id step_name task_id attempt_id artifacts a :
  a ∈ _artifacts_to_json list_of_set self ext run_id step_name task_id attempt_id artifacts →
  ∀ t, (t ∈ Art.tags a ↔ t ∈ sticky_tags self)
       ∧ (t ∈ Art.system_tags a ↔ t ∈ sticky_sys_tags self).
Proof.
  unfold _artifacts_to_json. intros (k & art & -> & _)%elem_of_lookup_imap t.
  cbn [Art.tags Art.system_tags]. apply all_obj_elements_tags.
Qed.

(** Every artifact gets its record, at the same position. *)
Lemma artifacts_to_json_lookup self ext run_id step_name task_id attempt_id artifacts k art :
  artifacts !! k = Some art →
  ∃ a, _artifacts_to_json list_of_set self ext run_id step_name task_id attempt_id
                          artifacts !! k = Some a
       ∧ Art.name a = DataArtifact.name art
       ∧ ∀ t, (t ∈ Art.tags a ↔ t ∈ sticky_tags self)
              ∧ (t ∈ Art.system_tags a ↔ t ∈ sticky_sys_tags self).
Proof.
  intros Hk.
  assert (Hl : ∃ a, _artifacts_to_json list_of_set self ext run_id step_name task_id
                      attempt_id artifacts !! k = Some a
                    ∧ Art.name a = DataArtifact.name art).
  { unfold _artifacts_to_json. rewrite list_lookup_imap, Hk. by eexists. }
  destruct Hl as (a & Ha & Hname). exists a. split; [done|]. split; [done|].
  eapply artifacts_to_json_tags. by eapply list_elem_of_lookup_2.
Qed.

End RecordBuilderFacts.

Section StickyTagsFacts.
Implicit Types (self : provider) (tags sys_tags : option (list string)).

Lemma truthy_default {A} (l : option (list A)) x :
  x ∈ default [] l → truthy l = true.
Proof. destruct l as [[|y l]|]; simpl; [by intros ?%elem_of_nil|done|by intros ?%elem_of_nil]. Qed.

Lemma add_sticky_tags_sticky_tags self tags sys_tags t :
  t ∈ sticky_tags (add_sticky_tags self tags sys_tags)
  ↔ t ∈ sticky_tags self ∨ t ∈ default [] tags.
Proof.
  unfold add_sticky_tags.
  destruct (truthy tags) eqn:Ht; destruct (truthy sys_tags); cbn [sticky_tags].
  1,2: rewrite elem_of_union, elem_of_list_to_set; done.
  all: split; [by left | intros [?|Hin]; [done|]];
    apply truthy_default in Hin; congruence.
Qed.

Lemma add_sticky_tags_sticky_sys_tags self tags sys_tags t :
  t ∈ sticky_sys_tags (add_sticky_tags self tags sys_tags)
  ↔ t ∈ sticky_sys_tags self ∨ t ∈ default [] sys_tags.
Proof.
  unfold add_sticky_tags.
  destruct (truthy tags); destruct (truthy sys_tags) eqn:Ht; cbn [sticky_sys_tags].
  1,3: rewrite elem_of_union, elem_of_list_to_set; done.
  all: split; [by left | intros [?|Hin]; [done|]];
    apply truthy_default in Hin; congruence.
Qed.

Lemma add_sticky_tags_flow_name self tags sys_tags :
  _flow_name (add_sticky_tags self tags sys_tags) = _flow_name self.
Proof. unfold add_sticky_tags. by destruct (truthy tags), (truthy sys_tags). Qed.

(** The sticky tag sets only grow. *)
Lemma evolves_sticky_tags self self' :
  evolves self self' →
  sticky_tags self ⊆ sticky_tags self' ∧ sticky_sys_tags self ⊆ sticky_sys_tags self'.
Proof.
  induction 1 as [|self self' tags sys_tags _ [IH1 IH2]]; [done|].
  split; intros t Ht.
  - apply add_sticky_tags_sticky_tags. left. by apply IH1.
  - apply add_sticky_tags_sticky_sys_tags. left. by apply IH2.
Qed.

End StickyTagsFacts.

Section RecordBuilderProperties.
Variable list_of_set : gset string → list string.
Hypothesis list_of_set_elements : ∀ X, list_of_set X ≡ₚ elements X.
Implicit Types (self : provider) (tags sys_tags : option (list string))
  (ext : externals) (artifacts : list DataArtifact.t) (metadata : list MetaDatum.t).

(** C8: a sticky tag [t] that [add_sticky_tags] adds, and that was not
    there before: every artifact gets its record, and the record of an
    artifact built before the call does not hold [t] while the record built
    after the call holds it, however many other calls of [add_sticky_tags]
    come in between: user tags in ['tags'], system tags in ['system_tags'].
    No call removes a tag from either set. *)
Theorem sticky_tags_prospective self tags sys_tags t :
  (∀ self', evolves self self' →
     sticky_tags self ⊆ sticky_tags self'
     ∧ sticky_sys_tags self ⊆ sticky_sys_tags self')
  ∧ (∀ self' ext run_id step_name task_id attempt_id artifacts,
       length (_artifacts_to_json list_of_set self' ext run_id step_name task_id
                                  attempt_id artifacts) = length artifacts)
  ∧ (t ∉ sticky_tags self → t ∈ default [] tags →
     (∀ ext run_id step_name task_id attempt_id artifacts k art,
        artifacts !! k = Some art →
        ∃ a, _artifacts_to_json list_of_set self ext run_id step_name task_id
                                attempt_id artifacts !! k = Some a
             ∧ Art.name a = DataArtifact.name art
             ∧ t ∉ Art.tags a)
     ∧ (∀ self' ext run_id step_name task_id attempt_id artifacts k art,
          evolves (add_sticky_tags self tags sys_tags) self' →
          artifacts !! k = Some art →
          ∃ a, _artifacts_to_json list_of_set self' ext run_id step_name task_id
                                  attempt_id artifacts !! k = Some a
               ∧ Art.name a = DataArtifact.name art
               ∧ t ∈ Art.tags a)
     ∧ (∀ ext run_id step_name task_id attempt_id artifacts a,
          a ∈ _artifacts_to_json list_of_set self ext run_id step_name task_id
                                 attempt_id artifacts →
          t ∉ Art.tags a)
     ∧ (∀ self' ext run_id step_name task_id attempt_id artifacts a,
          evolves (add_sticky_tags self tags sys_tags) self' →
          a ∈ _artifacts_to_json list_of_set self' ext run_id step_name task_id
                                 attempt_id artifacts →
          t ∈ Art.tags a))
  ∧ (t ∉ sticky_sys_tags self → t ∈ default [] sys_tags →
     (∀ ext run_id step_name task_id attempt_id artifacts k art,
        artifacts !! k = Some art →
        ∃ a, _artifacts_to_json list_of_set self ext run_id step_name task_id
                                attempt_id artifacts !! k = Some a
             ∧ Art.name a = DataArtifact.name art
             ∧ t ∉ Art.system_tags a)
     ∧ (∀ self' ext run_id step_name task_id attempt_id artifacts k art,
          evolves (add_sticky_tags self tags sys_tags) self' →
          artifacts !! k = Some art →
          ∃ a, _artifacts_to_json list_of_set self' ext run_id step_name task_id
                                  attempt_id artifacts !! k = Some a
               ∧ Art.name a = DataArtifact.name art
               ∧ t ∈ Art.system_tags a)
     ∧ (∀ ext run_id step_name task_id attempt_id artifacts a,
          a ∈ _artifacts_to_json list_of_set self ext run_id step_name task_id
                                 attempt_id artifacts →
          t ∉ Art.system_tags a)
     ∧ (∀ self' ext run_id step_name task_id attempt_id artifacts a,
          evolves (add_sticky_tags self tags sys_tags) self' →
          a ∈ _artifacts_to_json list_of_set self' ext run_id step_name task_id
                                 attempt_id artifacts →
          t ∈ Art.system_tags a)).
Proof.
  split; [apply evolves_sticky_tags|].
  split; [intros; unfold _artifacts_to_json; apply length_imap|].
  split.
  - intros Hfresh Hadd. split; [|split; [|split]].
    + intros ext run_id step_name task_id attempt_id artifacts k art Hk.
      destruct (artifacts_to_json_lookup _ list_of_set_elements self ext run_id step_name
                  task_id attempt_id artifacts k art Hk) as (a & Ha & Hname & Htags).
      exists a. split; [done|]. split; [done|]. by rewrite (proj1 (Htags t)).
    + intros self' ext run_id step_name task_id attempt_id artifacts k art Hev Hk.
      destruct (artifacts_to_json_lookup _ list_of_set_elements self' ext run_id step_name
                  task_id attempt_id artifacts k art Hk) as (a & Ha & Hname & Htags).
      exists a. split; [done|]. split; [done|]. rewrite (proj1 (Htags t)).
      apply (proj1 (evolves_sticky_tags _ _ Hev)).
      apply add_sticky_tags_sticky_tags. by right.
    + intros ext run_id step_name task_id attempt_id artifacts a Ha.
      by rewrite (proj1 (artifacts_to_json_tags _ list_of_set_elements _ _ _ _ _ _ _ _ Ha t)).
    + intros self' ext run_id step_name task_id attempt_id artifacts a Hev Ha.
      rewrite (proj1 (artifacts_to_json_tags _ list_of_set_elements _ _ _ _ _ _ _ _ Ha t)).
      apply (proj1 (evolves_sticky_tags _ _ Hev)).
      apply add_sticky_tags_sticky_tags. by right.
  - intros Hfresh Hadd. split; [|split; [|split]].
    + intros ext run_id step_name task_id attempt_id artifacts k art Hk.
      destruct (artifacts_to_json_lookup _ list_of_set_elements self ext run_id step_name
                  task_id attempt_id artifacts k art Hk) as (a & Ha & Hname & Htags).
      exists a. split; [done|]. split; [done|]. by rewrite (proj2 (Htags t)).
    + intros self' ext run_id step_name task_id attempt_id artifacts k art Hev Hk.
      destruct (artifacts_to_json_lookup _ list_of_set_elements self' ext run_id step_name
                  task_id attempt_id artifacts k art Hk) as (a & Ha & Hname & Htags).
      exists a. split; [done|]. split; [done|]. rewrite (proj2 (Htags t)).
      apply (proj2 (evolves_sticky_tags _ _ Hev)).
      apply add_sticky_tags_sticky_sys_tags. by right.
    + intros ext run_id step_name task_id attempt_id artifacts a Ha.
      by rewrite (proj2 (artifacts_to_json_tags _ list_of_set_elements _ _ _ _ _ _ _ _ Ha t)).
    + intros self' ext run_id step_name task_id attempt_id artifacts a Hev Ha.
      rewrite (proj2 (artifacts_to_json_tags _ list_of_set_elements _ _ _ _ _ _ _ _ Ha t)).
      apply (proj2 (evolves_sticky_tags _ _ Hev)).
      apply add_sticky_tags_sticky_sys_tags. by right.
Qed.


End RecordBuilderProperties.

Section SelectionProperties.
Context {A : Type} `{Tagged A}.

(** C9: the result of [_apply_filter] is a sublist of its input, and so is
    every list [_reconstruct_metadata_for_attempt] returns: the records kept
    are records of the input, as they are, in the same order and never more
    often than in the input. *)
Theorem selection_only (elts : list A) (filters : filters_t)
    (all_metadata : list Md.t) (attempt_id : Z) :
  (_apply_filter elts filters `sublist_of` elts
   ∧ ∀ obj, obj ∈ _apply_filter elts filters → obj ∈ elts)
  ∧ (∀ out, _reconstruct_metadata_for_attempt all_metadata attempt_id = Py.Returns out →
       out `sublist_of` all_metadata ∧ ∀ v, v ∈ out → v ∈ all_metadata).
Proof.
  assert (Hsub : _apply_filter elts filters `sublist_of` elts).
  { destruct filters as [items|]; [|done].
    rewrite apply_filter_Forall. apply sublist_filter. }
  split.
  - split; [exact Hsub|]. intros obj. by apply sublist_subseteq.
  - intros out Hout%reconstruct_sublist. split; [done|].
    intros v. by apply sublist_subseteq.
Qed.

End SelectionProperties.

Lemma selection_only_witness :
  ∃ out, _reconstruct_metadata_for_attempt sample_legacy 1 = Py.Returns out
         ∧ out `sublist_of` sample_legacy.
Proof.
  eexists. split; [vm_compute; reflexivity|].
  apply (proj2 (selection_only sample_arts None sample_legacy 1)).
  vm_compute. reflexivity.
Defined.

Lemma sticky_tags_prospective_witness :
  (∃ a, _artifacts_to_json elements sample_provider sample_ext
          (Py.Int 7) "start" (Py.Int 1) (Py.Int 0) [sample_data_artifact] !! 0%nat
        = Some a
        ∧ Art.name a = "x" ∧ "env:prod" ∉ Art.tags a)
  ∧ (∃ a, _artifacts_to_json elements
            (add_sticky_tags sample_provider (Some ["env:prod"]) None) sample_ext
            (Py.Int 7) "start" (Py.Int 1) (Py.Int 0) [sample_data_artifact] !! 0%nat
          = Some a
          ∧ Art.name a = "x" ∧ "env:prod" ∈ Art.tags a).
Proof.
  assert (Hperm : ∀ X : gset string, elements X ≡ₚ elements X) by reflexivity.
  assert (Hfresh : "env:prod" ∉ sticky_tags sample_provider) by apply not_elem_of_empty.
  assert (Hadd : "env:prod" ∈ default [] (Some ["env:prod"])) by left.
  pose proof (proj1 (proj2 (proj2 (sticky_tags_prospective elements Hperm
                              sample_provider (Some ["env:prod"]) None "env:prod")))
                Hfresh Hadd) as (Hbefore & Hafter & _).
  split.
  - exact (Hbefore sample_ext (Py.Int 7) "start" (Py.Int 1) (Py.Int 0)
             [sample_data_artifact] 0%nat sample_data_artifact eq_refl).
  - exact (Hafter _ sample_ext (Py.Int 7) "start" (Py.Int 1) (Py.Int 0)
             [sample_data_artifact] 0%nat sample_data_artifact (evolves_refl _) eq_refl).
Defined.



(** ** The code on concrete requests and records *)

Example int_of_letters :
  Py.int (Py.Str "abc") = Py.Raises (Py.ValueError "invalid literal for int() with base 10").
Proof. reflexivity. Qed.

Example int_of_negative : Py.int (Py.Str "-1") = Py.Returns (-1).
Proof. reflexivity. Qed.

Example int_of_padded : Py.int (Py.Str " 1_000 ") = Py.Returns 1000.
Proof. reflexivity. Qed.

Example get_object_flows :
  get_object "root" "flow" None Py.None_ []
  = Fetch (FetchCall "root" 0 "flow" 1 None None []) ReturnAsIs.
Proof. reflexivity. Qed.

Example get_object_metadata_of_attempt :
  get_object "task" "metadata" None (Py.Str "2") []
  = Fetch (FetchCall "task" 4 "metadata" 6 None (Some 2) []) (ReconstructForAttempt 2).
Proof. reflexivity. Qed.

Example get_object_artifacts_of_attempt :
  get_object "task" "artifact" (Some [("tags", "a")]) (Py.Int 2) []
  = Fetch (FetchCall "task" 4 "artifact" 5 (Some [("tags", "a")]) (Some 2) []) ReturnAsIs.
Proof. reflexivity. Qed.

Example get_object_metadata_of_run :
  get_object "run" "metadata" None Py.None_ []
  = Raise (Py.MetaflowInternalError "Metadata can only be retrieved at the task level").
Proof. reflexivity. Qed.

Example get_object_below_artifact :
  get_object "artifact" "task" None Py.None_ []
  = Raise (Py.MetaflowInternalError "Subtype task not allowed for artifact").
Proof. reflexivity. Qed.

Example get_object_unknown_type :
  get_object "bogus" "flow" None (Py.Str "abc") []
  = Raise (Py.MetaflowInternalError "Cannot find type bogus").
Proof. reflexivity. Qed.

Example get_object_negative_attempt :
  get_object "task" "metadata" None (Py.Str "-1") []
  = Raise (Py.ValueError "Attempt can only be a positive integer").
Proof. reflexivity. Qed.

Example reconstruct_tagged_attempt_0 :
  _reconstruct_metadata_for_attempt sample_tagged 0
  = Py.Returns [sample_md "attempt" (Py.Str "0") 100 (Some ["attempt_id:0"]);
                sample_md "x" (Py.Str "a") 150 (Some ["attempt_id:0"])].
Proof. vm_compute. reflexivity. Qed.

Example reconstruct_legacy_attempt_1 :
  _reconstruct_metadata_for_attempt sample_legacy 1
  = Py.Returns [sample_md "attempt" (Py.Str "1") 500 None;
                sample_md "x" (Py.Str "b") 600 (Some [])].
Proof. vm_compute. reflexivity. Qed.

Example reconstruct_legacy_attempt_2 :
  _reconstruct_metadata_for_attempt sample_legacy 2 = Py.Returns [].
Proof. vm_compute. reflexivity. Qed.

Example apply_filter_two_kinds :
  _apply_filter sample_arts (Some [("tags", "a"); ("system_tags", "b")])
  = [sample_art "x" ["a"] ["b"]].
Proof. vm_compute. reflexivity. Qed.

Example apply_filter_bogus_kind :
  _apply_filter sample_arts (Some [("bogus", "x")]) = [].
Proof. vm_compute. reflexivity. Qed.

Example artifact_record_with_sticky_tag :
  Art.tags <$> _artifacts_to_json elements
                 (add_sticky_tags sample_provider (Some ["env:prod"]) None) sample_ext
                 (Py.Int 7) "start" (Py.Int 1) (Py.Int 0) [sample_data_artifact]
  = [["env:prod"]].
Proof. vm_compute. reflexivity. Qed.

Example metadata_record_with_sticky_tag :
  Md.tags <$> _metadata_to_json elements
                (add_sticky_tags sample_provider (Some ["env:prod"]) None) sample_ext
                (Py.Int 7) "start" (Py.Int 1) [sample_datum]
  = [Some ["attempt_id:0"]].
Proof. vm_compute. reflexivity. Qed.

(** * Further properties of the provider *)

(** ** The tag filter as a pipeline *)

Section ApplyFilterPipeline.
Context {A : Type} `{Tagged A}.
Implicit Types (elts : list A) (items : list (string * string)).

(** X1: filtering with the items of two mappings put one after the other is
    filtering with the first mapping and then filtering the result with the
    second; more items never bring an object back. *)
Theorem apply_filter_pipeline elts items1 items2 :
  _apply_filter elts (Some (items1 ++ items2))
  = _apply_filter (_apply_filter elts (Some items1)) (Some items2)
  ∧ _apply_filter elts (Some (items1 ++ items2))
      `sublist_of` _apply_filter elts (Some items1).
Proof.
  assert (Hcomp : _apply_filter elts (Some (items1 ++ items2))
                  = _apply_filter (_apply_filter elts (Some items1)) (Some items2))
    by (unfold _apply_filter; apply fold_left_app).
  split; [exact Hcomp|].
  rewrite Hcomp, (apply_filter_Forall (_apply_filter elts (Some items1))).
  apply sublist_filter.
Qed.

(** X2: filtering is idempotent: filtering a result again with the same
    filters changes nothing. *)
Theorem apply_filter_idempotent elts filters :
  _apply_filter (_apply_filter elts filters) filters = _apply_filter elts filters.
Proof.
  destruct filters as [items|]; [|done].
  rewrite !apply_filter_Forall, list_filter_filter.
  apply list_filter_iff. intros obj. tauto.
Qed.

(** X3: an object without the key a filter reads is dropped: without
    ['tags'] by every [tags] filter, without ['system_tags'] by every
    [system_tags] filter, without both by every non-empty filters mapping. *)
Theorem apply_filter_missing_key elts items obj :
  (get_tags obj = None → (∃ v, ("tags", v) ∈ items) →
     obj ∉ _apply_filter elts (Some items))
  ∧ (get_system_tags obj = None → (∃ v, ("system_tags", v) ∈ items) →
     obj ∉ _apply_filter elts (Some items))
  ∧ (get_tags obj = None → get_system_tags obj = None → items ≠ [] →
     obj ∉ _apply_filter elts (Some items)).
Proof.
  assert (Hdrop : ∀ it, it ∈ items → ¬ keeps it obj →
                        obj ∉ _apply_filter elts (Some items)).
  { intros it Hit Hk. rewrite apply_filter_Forall, list_elem_of_filter.
    intros [Hall _]. rewrite Forall_forall in Hall. by apply Hk, Hall. }
  split; [|split].
  - intros Ht [v Hv]. apply (Hdrop _ Hv). unfold keeps; simpl. rewrite Ht; simpl.
    rewrite elem_of_nil. intuition discriminate.
  - intros Hs [v Hv]. apply (Hdrop _ Hv). unfold keeps; simpl. rewrite Hs; simpl.
    rewrite elem_of_nil. intuition discriminate.
  - intros Ht Hs Hne. destruct items as [|it items]; [done|].
    apply (Hdrop it); [left|]. unfold keeps. rewrite Ht, Hs; simpl.
    rewrite elem_of_nil. tauto.
Qed.

End ApplyFilterPipeline.

Lemma apply_filter_missing_key_witness :
  "run-7" ∉ _apply_filter ["run-7"; "run-8"] (Some [("any_tags", "a")]).
Proof.
  apply (proj2 (proj2 (apply_filter_missing_key ["run-7"; "run-8"]
                         [("any_tags", "a")] "run-7"))); done.
Defined.

(** ** More on attempt reconstruction *)

Section ReconstructFurther.
Implicit Types (v : Md.t) (all_metadata : list Md.t) (st : scan_state).
#[local] Arguments Py.int : simpl never.

Lemma scan_record_value_ok a st v st' :
  scan_record a st v = Py.Returns st' → attempt_value_ok v.
Proof.
  unfold scan_record, attempt_value_ok. intros Hret Hf.
  rewrite (bool_decide_true _ Hf) in Hret.
  destruct (Py.int (Md.value v)) as [n|e]; [by exists n | discriminate Hret].
Qed.

Lemma scan_all_value_ok a all_metadata : ∀ st st',
  scan_all a st all_metadata = Py.Returns st' → Forall attempt_value_ok all_metadata.
Proof.
  induction all_metadata as [|v l IH]; intros st st'; simpl; [constructor|].
  destruct (scan_record a st v) as [st1|] eqn:H1; [|discriminate].
  cbn [mbind result_bind Py.bind]. intros Hl. constructor.
  - by eapply scan_record_value_ok.
  - by eapply IH.
Qed.

(** X4: [_reconstruct_metadata_for_attempt] returns a list exactly when the
    value of every ['attempt'] record converts to an integer; otherwise the
    error of [int] comes out of it, whatever the attempt asked for. *)
Theorem reconstruct_returns_iff all_metadata attempt_id :
  (∃ out, _reconstruct_metadata_for_attempt all_metadata attempt_id = Py.Returns out)
  ↔ Forall attempt_value_ok all_metadata.
Proof.
  split.
  - intros [out Hout]. unfold _reconstruct_metadata_for_attempt in Hout.
    destruct (scan_all attempt_id scan_init all_metadata) as [st|] eqn:Hscan;
      [|discriminate].
    by eapply scan_all_value_ok.
  - intros Hok. rewrite (reconstruct_spec _ _ Hok). by eexists.
Qed.

(** X5: when every record carries an [attempt_id:<int>] tag, no record is
    returned for two different attempts. *)
Theorem reconstruct_tagged_disjoint all_metadata a b :
  Forall attempt_value_ok all_metadata →
  Forall (fun v => ∃ t, t ∈ default [] (Md.tags v) ∧ is_Some (attempt_tag t)) all_metadata →
  a ≠ b →
  ∃ out_a out_b,
    _reconstruct_metadata_for_attempt all_metadata a = Py.Returns out_a
    ∧ _reconstruct_metadata_for_attempt all_metadata b = Py.Returns out_b
    ∧ ∀ v, v ∈ out_a → v ∉ out_b.
Proof.
  intros Hok Htag Hab.
  assert (Hall : Forall (fun v => is_Some (explicit_attempt v)) all_metadata).
  { eapply Forall_impl; [exact Htag|]. intros v Hv. by apply explicit_attempt_is_Some. }
  rewrite !(reconstruct_spec _ _ Hok), (bool_decide_true _ Hall).
  do 2 eexists. split; [done|]. split; [done|].
  intros v [Ha _]%list_elem_of_filter [Hb _]%list_elem_of_filter. congruence.
Qed.

(** X6: tagged or not, no record is returned both for an attempt and for the
    next one. *)
Theorem reconstruct_consecutive_disjoint all_metadata a :
  Forall attempt_value_ok all_metadata →
  ∃ out out_next,
    _reconstruct_metadata_for_attempt all_metadata a = Py.Returns out
    ∧ _reconstruct_metadata_for_attempt all_metadata (a + 1) = Py.Returns out_next
    ∧ ∀ v, v ∈ out → v ∉ out_next.
Proof.
  intros Hok. rewrite !(reconstruct_spec _ _ Hok).
  do 2 eexists. split; [done|]. split; [done|]. cbn zeta.
  destruct (bool_decide (Forall _ all_metadata)).
  - intros v [Ha _]%list_elem_of_filter [Hb _]%list_elem_of_filter.
    rewrite Ha in Hb. injection Hb. lia.
  - destruct (attempt_start all_metadata (a + 1)) as [next|]; cbn [default from_option];
      unfold id.
    + repeat case_bool_decide; intros v Hin Hnext;
        try (by apply elem_of_nil in Hin); try (by apply elem_of_nil in Hnext).
      apply list_elem_of_filter in Hin as [[_ Hlt] _].
      apply list_elem_of_filter in Hnext as [[Hge _] _]. lia.
    + rewrite (bool_decide_true (-1 < 0)) by lia.
      intros v _ Hnext. by apply elem_of_nil in Hnext.
Qed.

(** X7: when some record carries no [attempt_id:<int>] tag, every record
    returned has a timestamp that is not negative and not before the start
    of the attempt; if the ['attempt'] record of the attempt itself has a
    negative timestamp, nothing is returned. *)
Theorem reconstruct_window_lower_bound all_metadata attempt_id :
  Forall attempt_value_ok all_metadata →
  (∃ w, w ∈ all_metadata ∧ ∀ t, t ∈ default [] (Md.tags w) → attempt_tag t = None) →
  ∃ out,
    _reconstruct_metadata_for_attempt all_metadata attempt_id = Py.Returns out
    ∧ (∀ v, v ∈ out →
         ∃ start_ts, attempt_start all_metadata attempt_id = Some start_ts
                     ∧ 0 <= start_ts ∧ start_ts <= Md.ts_epoch v)
    ∧ (∀ start_ts, attempt_start all_metadata attempt_id = Some start_ts →
         start_ts < 0 → out = []).
Proof.
  intros Hok (w & Hw & Hnotag).
  assert (Hnall : ¬ Forall (fun v => is_Some (explicit_attempt v)) all_metadata).
  { intros Hall. rewrite Forall_forall in Hall.
    apply Hall, explicit_attempt_is_Some in Hw as (t & Ht & Hs).
    rewrite (Hnotag t Ht) in Hs. by destruct Hs. }
  rewrite (reconstruct_spec _ _ Hok), (bool_decide_false _ Hnall). cbn zeta.
  eexists. split; [done|].
  destruct (attempt_start all_metadata attempt_id) as [s|]; cbn [default from_option];
    unfold id.
  - case_bool_decide as Hneg; split.
    + by intros v ?%elem_of_nil.
    + done.
    + intros v [[Hge _] _]%list_elem_of_filter. exists s. split; [done|]. lia.
    + intros ? [= <-] ?. lia.
  - rewrite (bool_decide_true (-1 < 0)) by lia. split; [|done].
    by intros v ?%elem_of_nil.
Qed.

End ReconstructFurther.

Lemma sample_legacy_values_ok : Forall attempt_value_ok sample_legacy.
Proof. each_record ltac:(intros Hf; first [by vm_compute in Hf | eexists; vm_compute; reflexivity]). Qed.

Lemma sample_tagged_values_ok : Forall attempt_value_ok sample_tagged.
Proof. each_record ltac:(intros Hf; first [by vm_compute in Hf | eexists; vm_compute; reflexivity]). Qed.

Lemma reconstruct_returns_iff_witness :
  ∃ out, _reconstruct_metadata_for_attempt sample_legacy 1 = Py.Returns out.
Proof.
  apply (proj2 (reconstruct_returns_iff sample_legacy 1)).
  exact sample_legacy_values_ok.
Defined.

Example reconstruct_bad_attempt_value :
  _reconstruct_metadata_for_attempt
    [sample_md "x" (Py.Str "a") 150 (Some ["attempt_id:0"]);
     sample_md "attempt" (Py.Str "first") 100 (Some ["attempt_id:0"])] 0
  = Py.Raises (Py.ValueError "invalid literal for int() with base 10").
Proof. vm_compute. reflexivity. Qed.

Lemma reconstruct_tagged_disjoint_witness :
  ∃ out_a out_b,
    _reconstruct_metadata_for_attempt sample_tagged 0 = Py.Returns out_a
    ∧ _reconstruct_metadata_for_attempt sample_tagged 1 = Py.Returns out_b
    ∧ ∀ v, v ∈ out_a → v ∉ out_b.
Proof.
  apply (reconstruct_tagged_disjoint sample_tagged 0 1).
  - exact sample_tagged_values_ok.
  - each_record ltac:(eexists; split; [left | eexists; vm_compute; reflexivity]).
  - discriminate.
Defined.

Lemma reconstruct_consecutive_disjoint_witness :
  ∃ out out_next,
    _reconstruct_metadata_for_attempt sample_legacy 0 = Py.Returns out
    ∧ _reconstruct_metadata_for_attempt sample_legacy (0 + 1) = Py.Returns out_next
    ∧ ∀ v, v ∈ out → v ∉ out_next.
Proof.
  apply (reconstruct_consecutive_disjoint sample_legacy 0).
  exact sample_legacy_values_ok.
Defined.

Lemma reconstruct_window_lower_bound_witness :
  ∃ out,
    _reconstruct_metadata_for_attempt sample_legacy 1 = Py.Returns out
    ∧ (∀ v, v ∈ out →
         ∃ start_ts, attempt_start sample_legacy 1 = Some start_ts
                     ∧ 0 <= start_ts ∧ start_ts <= Md.ts_epoch v)
    ∧ (∀ start_ts, attempt_start sample_legacy 1 = Some start_ts →
         start_ts < 0 → out = []).
Proof.
  apply (reconstruct_window_lower_bound sample_legacy 1).
  - exact sample_legacy_values_ok.
  - eexists. split; [left|]. intros t Ht. vm_compute in Ht. by apply not_elem_of_nil in Ht.
Defined.

(** ** More on the hierarchy validator *)

Section GetObjectFurther.
Implicit Types (obj_type sub_type : string) (filters : filters_t) (attempt : val)
  (args : list val).

Lemma get_object_fetch_valid obj_type sub_type filters attempt args call post :
  get_object obj_type sub_type filters attempt args = Fetch call post →
  valid_aggregation obj_type sub_type.
Proof.
  intros Hf. destruct (valid_aggregation_dec obj_type sub_type) as [Hv|Hv]; [done|].
  pose proof (get_object_hierarchy_errors _ _ filters attempt args Hv) as Hin.
  rewrite Hf, !elem_of_cons, elem_of_nil in Hin.
  destruct Hin as [E|[E|[E|[E|[E|[]]]]]]; discriminate E.
Qed.

Lemma sub_order_metadata s b : obj_order !! s = Some b → b ≠ 6 ↔ s ≠ "metadata".
Proof.
  intros Hb%obj_order_lookup.
  repeat (destruct Hb as [[-> ->]|Hb]; [split; intros ?; first [lia | congruence]|]).
  destruct Hb as [-> ->]. split; intros ?; first [lia | congruence].
Qed.

(** X8: when [get_object] calls the backend, it passes the two names, their
    positions in the hierarchy, the filters and the locator arguments as it
    got them, and the attempt as an integer (or [None]); the value of the
    backend goes through the attempt reconstruction exactly for a metadata
    query with an attempt, and is returned as it is otherwise. *)
Theorem get_object_fetch obj_type sub_type filters attempt args call post :
  get_object obj_type sub_type filters attempt args = Fetch call post →
  fc_obj_type call = obj_type ∧ fc_sub_type call = sub_type
  ∧ obj_order !! obj_type = Some (fc_obj_order call)
  ∧ obj_order !! sub_type = Some (fc_sub_order call)
  ∧ fc_filters call = filters ∧ fc_args call = args
  ∧ check_attempt attempt = Py.Returns (fc_attempt call)
  ∧ post = match fc_attempt call with
           | Some n => if bool_decide (sub_type = "metadata")
                       then ReconstructForAttempt n else ReturnAsIs
           | None => ReturnAsIs
           end.
Proof.
  intros Hf.
  destruct (get_object_fetch_valid _ _ _ _ _ _ _ Hf) as (a & b & Ha & Hb & H5 & Hab & Hm).
  rewrite (get_object_valid _ _ _ _ _ a b) in Hf by done.
  destruct (check_attempt attempt) as [ai|]; [|discriminate Hf].
  injection Hf as <- <-. cbn [fc_obj_type fc_obj_order fc_sub_type fc_sub_order
                              fc_filters fc_attempt fc_args].
  repeat split; try done.
  destruct ai as [n|]; [|done].
  pose proof (sub_order_metadata _ _ Hb) as Hsix.
  repeat case_bool_decide; try done; tauto.
Qed.

(** X9: information about one object ([self]) can be asked for every level
    from [root] to [artifact]; below an artifact nothing else can be asked:
    with [artifact] as the container the backend is called only for
    [self]. *)
Theorem get_object_self_and_artifact filters attempt args :
  valid_attempt attempt →
  (∀ obj_type, obj_type ∈ ["root"; "flow"; "run"; "step"; "task"; "artifact"] →
     calls_backend (get_object obj_type "self" filters attempt args) = true)
  ∧ (∀ sub_type,
       calls_backend (get_object "artifact" sub_type filters attempt args) = true
       ↔ sub_type = "self").
Proof.
  intros Hatt.
  assert (Hcall : ∀ obj_type sub_type a b,
            obj_order !! obj_type = Some a → obj_order !! sub_type = Some b →
            a <= 5 → a < b → (sub_type = "metadata" → obj_type = "task") →
            calls_backend (get_object obj_type sub_type filters attempt args) = true).
  { intros obj_type sub_type a b Ha Hb H5 Hab Hm.
    rewrite (get_object_valid _ _ _ _ _ a b) by done.
    by rewrite (check_attempt_valid _ Hatt). }
  split.
  - intros obj_type Hin. rewrite !elem_of_cons, elem_of_nil in Hin.
    destruct Hin as [->|[->|[->|[->|[->|[->|[]]]]]]];
      eapply Hcall; try reflexivity; try lia; discriminate.
  - intros sub_type. split.
    + destruct (get_object "artifact" sub_type filters attempt args) as [|call post] eqn:Hg;
        [discriminate|]. intros _.
      apply get_object_fetch_valid in Hg as (a & b & Ha & Hb & H5 & Hab & Hm).
      apply obj_order_lookup in Ha. apply obj_order_lookup in Hb.
      assert (a = 5) as -> by (intuition (try discriminate; congruence)).
      repeat (destruct Hb as [[-> ->]|Hb]; [lia|]).
      destruct Hb as [[-> ->]|[-> ->]]; [|done].
      by specialize (Hm eq_refl).
    + intros ->. eapply (Hcall "artifact" "self" 5 7); try reflexivity; try lia; discriminate.
Qed.

End GetObjectFurther.

Lemma get_object_fetch_witness :
  check_attempt (Py.Str "2") = Py.Returns (Some 2)
  ∧ ReconstructForAttempt 2
    = (if bool_decide ("metadata" = "metadata") then ReconstructForAttempt 2 else ReturnAsIs).
Proof.
  pose proof (get_object_fetch "task" "metadata" None (Py.Str "2") []
                (FetchCall "task" 4 "metadata" 6 None (Some 2) [])
                (ReconstructForAttempt 2) eq_refl) as (_ & _ & _ & _ & _ & _ & Hatt & Hpost).
  split; [exact Hatt | exact Hpost].
Defined.

Lemma get_object_self_and_artifact_witness :
  valid_attempt (Py.Int 3)
  ∧ calls_backend (get_object "artifact" "self" None (Py.Int 3) []) = true.
Proof.
  assert (Hv : valid_attempt (Py.Int 3)) by (right; exists 3; split; [reflexivity | lia]).
  split; [exact Hv|].
  apply (proj1 (get_object_self_and_artifact None (Py.Int 3) [] Hv)).
  do 5 right. left.
Defined.

(** ** More on sticky tags and the builders of artifact and metadata records *)

Section StickyTagsFurther.
Implicit Types (self : provider) (tags sys_tags : option (list string)).

(** Whatever the truth value of its arguments, [add_sticky_tags] takes the
    union with the tags given. *)
Lemma add_sticky_tags_union self tags sys_tags :
  add_sticky_tags self tags sys_tags
  = Provider (_task_id_seq self)
             (sticky_tags self ∪ list_to_set (default [] tags))
             (sticky_sys_tags self ∪ list_to_set (default [] sys_tags))
             (_flow_name self).
Proof.
  unfold add_sticky_tags. destruct self as [seq st sst fl].
  destruct tags as [[|t tl]|], sys_tags as [[|s sl]|];
    cbn [truthy default from_option id list_to_set foldr _task_id_seq sticky_tags
         sticky_sys_tags _flow_name]; f_equal; by rewrite (right_id_L ∅ (∪)).
Qed.

(** X10: [add_sticky_tags] without tags ([None] or empty lists) changes
    nothing; adding the same tags again changes nothing; and the order of two
    calls does not matter. *)
Theorem add_sticky_tags_algebra self tags sys_tags tags' sys_tags' :
  add_sticky_tags self None None = self
  ∧ add_sticky_tags self (Some []) (Some []) = self
  ∧ add_sticky_tags (add_sticky_tags self tags sys_tags) tags sys_tags
    = add_sticky_tags self tags sys_tags
  ∧ add_sticky_tags (add_sticky_tags self tags sys_tags) tags' sys_tags'
    = add_sticky_tags (add_sticky_tags self tags' sys_tags') tags sys_tags.
Proof.
  split; [by destruct self|]. split; [by destruct self|].
  rewrite !add_sticky_tags_union.
  cbn [_task_id_seq sticky_tags sticky_sys_tags _flow_name].
  split; f_equal.
  - by rewrite <- (assoc_L (∪)), (idemp_L (∪)).
  - by rewrite <- (assoc_L (∪)), (idemp_L (∪)).
  - rewrite <- !(assoc_L (∪)). f_equal. apply (comm_L (∪)).
  - rewrite <- !(assoc_L (∪)). f_equal. apply (comm_L (∪)).
Qed.

Lemma tags_length ext : (4 <= length (_tags ext) <= 7)%nat.
Proof.
  unfold _tags. case_bool_decide;
    destruct (EnvInfo.metaflow_r_version _), (EnvInfo.r_version_code _);
    rewrite ?length_app; simpl; lia.
Qed.

Lemma tags_identity ext : resolve_identity ext ∈ _tags ext.
Proof.
  unfold _tags. case_bool_decide;
    destruct (EnvInfo.metaflow_r_version _), (EnvInfo.r_version_code _);
    rewrite ?elem_of_app; repeat left.
Qed.

Lemma init_sticky ext flow_name :
  sticky_tags (__init__ ext flow_name) = ∅
  ∧ sticky_sys_tags (__init__ ext flow_name) = list_to_set (_tags ext).
Proof.
  unfold __init__. rewrite add_sticky_tags_union.
  cbn [sticky_tags sticky_sys_tags default from_option id list_to_set foldr].
  split; [apply (left_id_L ∅ (∪)) | apply (left_id_L ∅ (∪))].
Qed.

End StickyTagsFurther.

Section RecordBuilderFurther.
Variable list_of_set : gset string → list string.
Hypothesis list_of_set_elements : ∀ X, list_of_set X ≡ₚ elements X.
Implicit Types (self : provider) (ext : externals)
  (artifacts : list DataArtifact.t) (metadata : list MetaDatum.t).

(** X11: a provider that was just constructed holds no sticky user tag and
    the system tags of its environment, between four and seven of them with
    the identity of the user among them; every artifact record it builds has
    an empty ['tags'] list and exactly these tags as ['system_tags']. *)
Theorem init_artifacts_tags ext flow_name run_id step_name task_id attempt_id artifacts a :
  a ∈ _artifacts_to_json list_of_set (__init__ ext flow_name) ext
        run_id step_name task_id attempt_id artifacts →
  Art.tags a = []
  ∧ (∀ t, t ∈ Art.system_tags a ↔ t ∈ _tags ext)
  ∧ NoDup (Art.system_tags a)
  ∧ resolve_identity ext ∈ Art.system_tags a
  ∧ (4 <= length (_tags ext) <= 7)%nat.
Proof.
  unfold _artifacts_to_json. intros (k & art & -> & _)%elem_of_lookup_imap.
  cbn [Art.tags Art.system_tags]. unfold _all_obj_elements.
  cbn [ObjElements.tags ObjElements.system_tags].
  destruct (init_sticky ext flow_name) as [-> ->].
  assert (Hne : list_to_set (_tags ext) ≠@{gset string} ∅).
  { intros He. pose proof (tags_identity ext) as Hid.
    apply (elem_of_list_to_set (C:=gset string)) in Hid.
    rewrite He in Hid. by apply not_elem_of_empty in Hid. }
  rewrite (bool_decide_false (∅ ≠ ∅)) by (intros Hn; by apply Hn).
  rewrite (bool_decide_true _ Hne).
  assert (Hmem : ∀ t, t ∈ list_of_set (list_to_set (_tags ext)) ↔ t ∈ _tags ext).
  { intros t. by rewrite list_of_set_elements, elem_of_elements, elem_of_list_to_set. }
  split; [done|]. split; [exact Hmem|]. split.
  - rewrite list_of_set_elements. apply NoDup_elements.
  - split; [apply Hmem, tags_identity | apply tags_length].
Qed.

(** X12: [_artifacts_to_json] builds one record per artifact, in the order
    of the artifacts: the [k]-th record has the name, hash and types of the
    [k]-th artifact, the identifiers given and the [k]-th reading of the
    clock; its location is never empty, the URL of the artifact when it has
    one and the datastore root marked with [:root:] otherwise. *)
Theorem artifacts_to_json_records self ext run_id step_name task_id attempt_id artifacts :
  length (_artifacts_to_json list_of_set self ext run_id step_name task_id
                             attempt_id artifacts) = length artifacts
  ∧ ∀ k art, artifacts !! k = Some art →
      ∃ a, _artifacts_to_json list_of_set self ext run_id step_name task_id
                              attempt_id artifacts !! k = Some a
           ∧ Art.name a = DataArtifact.name art
           ∧ Art.sha a = DataArtifact.sha art
           ∧ Art.content_type a = DataArtifact.type art
           ∧ Art.ds_type a = DataArtifact.ds_type art
           ∧ Art.type a = "metaflow.artifact"
           ∧ Art.run_number a = run_id ∧ Art.step_name a = step_name
           ∧ Art.task_id a = task_id ∧ Art.attempt_id a = attempt_id
           ∧ Art.flow_id a = _flow_name self
           ∧ Art.ts_epoch a = time_ms ext k
           ∧ Art.location a ≠ ""
           ∧ Art.location a
             = match DataArtifact.url art with
               | Some u => if bool_decide (u = "") then ":root:" +:+ DataArtifact.ds_root art
                           else u
               | None => ":root:" +:+ DataArtifact.ds_root art
               end.
Proof.
  unfold _artifacts_to_json. split; [apply length_imap|].
  intros k art Hk. rewrite list_lookup_imap, Hk. eexists. split; [reflexivity|].
  cbn [Art.name Art.sha Art.content_type Art.ds_type Art.type Art.run_number
       Art.step_name Art.task_id Art.attempt_id Art.flow_id Art.ts_epoch Art.location
       _all_obj_elements ObjElements.flow_id ObjElements.ts_epoch].
  repeat (split; [reflexivity|]).
  destruct (DataArtifact.url art) as [u|]; [|split; [discriminate | reflexivity]].
  repeat case_bool_decide; try done; split; try done; discriminate.
Qed.

(** X13: [_metadata_to_json] builds one record per datum, in order; the tag
    list of a record holds no tag twice, and the record carries the type of
    its datum, the identifiers given, the name of the flow, the user and the
    [k]-th reading of the clock. *)
Theorem metadata_to_json_records self ext run_id step_name task_id metadata :
  length (_metadata_to_json list_of_set self ext run_id step_name task_id metadata)
  = length metadata
  ∧ ∀ k datum, metadata !! k = Some datum →
      ∃ r, _metadata_to_json list_of_set self ext run_id step_name task_id metadata !! k
           = Some r
           ∧ (∃ l, Md.tags r = Some l ∧ NoDup l)
           ∧ Md.type r = MetaDatum.type datum
           ∧ Md.run_number r = run_id ∧ Md.step_name r = step_name
           ∧ Md.task_id r = task_id
           ∧ Md.flow_id r = _flow_name self
           ∧ Md.user_name r = get_username ext
           ∧ Md.ts_epoch r = time_ms ext k.
Proof.
  unfold _metadata_to_json. split; [apply length_imap|].
  intros k datum Hk. rewrite list_lookup_imap, Hk. eexists. split; [reflexivity|].
  cbn [Md.tags Md.type Md.run_number Md.step_name Md.task_id Md.flow_id
       Md.user_name Md.ts_epoch].
  split; [|done]. eexists. split; [reflexivity|].
  destruct (truthy _); [|constructor].
  rewrite list_of_set_elements. apply NoDup_elements.
Qed.

End RecordBuilderFurther.

Lemma init_artifacts_tags_witness :
  ∃ a, a ∈ _artifacts_to_json elements sample_provider sample_ext
             (Py.Int 7) "start" (Py.Int 1) (Py.Int 0) [sample_data_artifact]
       ∧ Art.tags a = []
       ∧ resolve_identity sample_ext ∈ Art.system_tags a.
Proof.
  assert (Hperm : ∀ X : gset string, elements X ≡ₚ elements X) by reflexivity.
  eexists. split; [simpl; apply list_elem_of_here|].
  match goal with
  | |- Art.tags ?a = _ ∧ _ =>
      pose proof (init_artifacts_tags elements Hperm sample_ext "HelloFlow"
                    (Py.Int 7) "start" (Py.Int 1) (Py.Int 0) [sample_data_artifact] a
                    (list_elem_of_here _ _)) as (Ht & _ & _ & Hid & _)
  end.
  split; [exact Ht | exact Hid].
Defined.

Lemma artifacts_to_json_records_witness :
  ∃ a, _artifacts_to_json elements sample_provider sample_ext
         (Py.Int 7) "start" (Py.Int 1) (Py.Int 0) [sample_data_artifact] !! 0%nat = Some a
       ∧ Art.name a = "x"
       ∧ Art.location a = ":root:/tmp/.metaflow".
Proof.
  destruct (proj2 (artifacts_to_json_records elements sample_provider sample_ext
                     (Py.Int 7) "start" (Py.Int 1) (Py.Int 0) [sample_data_artifact])
              0%nat sample_data_artifact eq_refl)
    as (a & Ha & Hname & _ & _ & _ & _ & _ & _ & _ & _ & _ & _ & _ & Hloc).
  exists a. split; [exact Ha|]. split; [exact Hname | exact Hloc].
Defined.

Lemma metadata_to_json_records_witness :
  ∃ r, _metadata_to_json elements sample_provider sample_ext
         (Py.Int 7) "start" (Py.Int 1)
         [MetaDatum.mk "x" (Py.Str "a") "t" (Some ["b"; "a"; "b"])] !! 0%nat = Some r
       ∧ ∃ l, Md.tags r = Some l ∧ NoDup l.
Proof.
  assert (Hperm : ∀ X : gset string, elements X ≡ₚ elements X) by reflexivity.
  destruct (proj2 (metadata_to_json_records elements Hperm sample_provider sample_ext
                     (Py.Int 7) "start" (Py.Int 1)
                     [MetaDatum.mk "x" (Py.Str "a") "t" (Some ["b"; "a"; "b"])])
              0%nat _ eq_refl)
    as (r & Hr & Hnodup & _).
  exists r. split; [exact Hr | exact Hnodup].
Defined.

(** ** The records of flows, runs, steps and tasks *)

Section ObjectJsonFacts.
Implicit Types (self : provider) (ext : externals) (run_id step_name task_id : val)
  (tags sys_tags : option (list string)).

Lemma truthy_default_list {A} (l : option (list A)) :
  (if truthy l then default [] l else []) = default [] l.
Proof. by destruct l as [[|x l]|]. Qed.

Lemma object_to_json_flow_name self self' ext obj_type run_id step_name task_id
    tags sys_tags :
  _flow_name self' = _flow_name self →
  ObjectJson._object_to_json self' ext obj_type run_id step_name task_id tags sys_tags
  = ObjectJson._object_to_json self ext obj_type run_id step_name task_id tags sys_tags.
Proof.
  intros Hf.
  unfold ObjectJson._object_to_json, ObjectJson._task_to_json, ObjectJson._step_to_json,
    ObjectJson._run_to_json, ObjectJson._flow_to_json, ObjectJson._all_obj_elements.
  by rewrite Hf.
Qed.

Lemma evolves_flow_name self self' : evolves self self' → _flow_name self' = _flow_name self.
Proof.
  induction 1 as [|? ? ? ? _ IH]; [done|]. by rewrite add_sticky_tags_flow_name.
Qed.

(** X14: [_object_to_json] builds the record of a flow for every type other
    than [task], [step] and [run]: the record then has the two keys
    [flow_id] and [ts_epoch] only, and the identifiers and tags given are
    left out. *)
Theorem object_to_json_default_is_flow self ext obj_type run_id step_name task_id
    tags sys_tags :
  obj_type ∉ ["task"; "step"; "run"] →
  ObjectJson._object_to_json self ext obj_type run_id step_name task_id tags sys_tags
  = ObjectJson._flow_to_json self ext
  ∧ dom (ObjectJson._object_to_json self ext obj_type run_id step_name task_id
           tags sys_tags)
    = list_to_set (C:=gset string) ["flow_id"; "ts_epoch"]
  ∧ ObjectJson._object_to_json self ext obj_type run_id step_name task_id tags sys_tags
      !! "flow_id" = Some (JScalar (Py.Str (_flow_name self))).
Proof.
  intros Hnot. rewrite !not_elem_of_cons in Hnot. destruct Hnot as (? & ? & ? & _).
  unfold ObjectJson._object_to_json. rewrite !bool_decide_false by done.
  split; [done|]. split; reflexivity.
Qed.

(** X15: for a task, a step or a run, the record holds the tags and system
    tags the caller gave, as lists, empty when none were given, with the name
    of the flow and of the user; the sticky tags of the provider are not
    added: the record is the same whatever sticky tags were set. *)
Theorem object_to_json_tags self ext obj_type run_id step_name task_id tags sys_tags :
  obj_type ∈ ["task"; "step"; "run"] →
  let d := ObjectJson._object_to_json self ext obj_type run_id step_name task_id
             tags sys_tags in
  d !! "tags" = Some (JTags (default [] tags))
  ∧ d !! "system_tags" = Some (JTags (default [] sys_tags))
  ∧ d !! "flow_id" = Some (JScalar (Py.Str (_flow_name self)))
  ∧ d !! "user_name" = Some (JScalar (Py.Str (get_username ext)))
  ∧ d !! "ts_epoch" = Some (JScalar (Py.Int (time_ms ext 0)))
  ∧ ∀ self', evolves self self' →
      ObjectJson._object_to_json self' ext obj_type run_id step_name task_id tags sys_tags
      = d.
Proof.
  intros Hin d. subst d.
  split; [|split; [|split; [|split; [|split]]]];
    try (intros self' Hev; apply object_to_json_flow_name, evolves_flow_name, Hev);
    rewrite !elem_of_cons, elem_of_nil in Hin;
    destruct Hin as [->|[->|[->|[]]]];
    unfold ObjectJson._object_to_json, ObjectJson._task_to_json, ObjectJson._step_to_json,
      ObjectJson._run_to_json, dict_update, ObjectJson._all_obj_elements;
    rewrite !truthy_default_list; cbn [bool_decide decide_rel];
    try destruct task_id; try destruct run_id; reflexivity.
Qed.

(** X16: the identifiers of a record: a task and a step always have the
    keys [run_number] and [step_name], with the values given, [None]
    included; [task_id] is there for a task only, and only when a task
    identifier was given; a run has [run_number] only when a run identifier
    was given.  The common fields never overwrite an identifier. *)
Theorem object_to_json_ids self ext run_id step_name task_id tags sys_tags :
  let task := ObjectJson._object_to_json self ext "task" run_id step_name task_id
                tags sys_tags in
  let step := ObjectJson._object_to_json self ext "step" run_id step_name task_id
                tags sys_tags in
  let run := ObjectJson._object_to_json self ext "run" run_id step_name task_id
               tags sys_tags in
  (task !! "run_number" = Some (JScalar run_id)
   ∧ task !! "step_name" = Some (JScalar step_name)
   ∧ task !! "task_id" = match task_id with
                          | Py.None_ => None
                          | _ => Some (JScalar task_id)
                          end)
  ∧ (step !! "run_number" = Some (JScalar run_id)
     ∧ step !! "step_name" = Some (JScalar step_name)
     ∧ step !! "task_id" = None)
  ∧ (run !! "run_number" = match run_id with
                            | Py.None_ => None
                            | _ => Some (JScalar run_id)
                            end
     ∧ run !! "step_name" = None
     ∧ run !! "task_id" = None).
Proof.
  cbv zeta.
  unfold ObjectJson._object_to_json, ObjectJson._task_to_json, ObjectJson._step_to_json,
    ObjectJson._run_to_json, dict_update, ObjectJson._all_obj_elements.
  cbn [bool_decide decide_rel].
  repeat split; try destruct task_id; try destruct run_id; reflexivity.
Qed.

End ObjectJsonFacts.

Lemma object_to_json_default_is_flow_witness :
  ObjectJson._object_to_json sample_provider sample_ext "artifact"
    (Py.Int 7) (Py.Str "start") (Py.Int 1) (Some ["a"]) None !! "tags" = None.
Proof.
  assert (Hnot : "artifact" ∉ ["task"; "step"; "run"])
    by (apply (bool_decide_unpack _); vm_compute; exact I).
  rewrite (proj1 (object_to_json_default_is_flow sample_provider sample_ext "artifact"
                    (Py.Int 7) (Py.Str "start") (Py.Int 1) (Some ["a"]) None Hnot)).
  reflexivity.
Defined.

Lemma object_to_json_tags_witness :
  ObjectJson._object_to_json
    (add_sticky_tags sample_provider (Some ["env:prod"]) None) sample_ext "run"
    (Py.Int 7) Py.None_ Py.None_ (Some ["a"]) None !! "tags"
  = Some (JTags ["a"]).
Proof.
  assert (Hin : "run" ∈ ["task"; "step"; "run"]) by (do 2 right; left).
  rewrite (proj2 (proj2 (proj2 (proj2 (proj2
             (object_to_json_tags sample_provider sample_ext "run"
                (Py.Int 7) Py.None_ Py.None_ (Some ["a"]) None Hin)))))
             _ (evolves_add _ _ _ _ (evolves_refl _))).
  exact (proj1 (object_to_json_tags sample_provider sample_ext "run"
                  (Py.Int 7) Py.None_ Py.None_ (Some ["a"]) None Hin)).
Defined.

(** ** The attempt tag written with the code package *)

Section FormatAttempt.

Lemma string_app_assoc (a b c : string) : (a +:+ b) +:+ c = a +:+ (b +:+ c).
Proof.
  induction a as [|x a IH]; [done|].
  change (String x ((a +:+ b) +:+ c) = String x (a +:+ (b +:+ c))). by f_equal.
Qed.

Lemma string_app_nil_r (a : string) : a +:+ "" = a.
Proof.
  induction a as [|x a IH]; [done|].
  change (String x (a +:+ "") = String x a). by f_equal.
Qed.

Lemma decimal_app a b : ∀ acc, decimal acc (a +:+ b) = decimal (decimal acc a) b.
Proof.
  induction a as [|x a IH]; intros acc; [done|].
  change (decimal (10 * acc + Py.digit_value x) (a +:+ b)
          = decimal (decimal (10 * acc + Py.digit_value x) a) b). apply IH.
Qed.

Lemma all_digits_app a b : all_digits a → all_digits b → all_digits (a +:+ b).
Proof.
  unfold all_digits. intros Ha Hb. induction a as [|x a IH]; [done|].
  apply Forall_cons in Ha as [Hx Ha].
  change (Forall (fun c => Py.is_digit c = true) (x :: list_ascii_of_string (a +:+ b))).
  constructor; [done | by apply IH].
Qed.

Lemma pretty_N_char_digit x :
  (x < 10)%N →
  Py.is_digit (pretty_N_char x) = true ∧ Py.digit_value (pretty_N_char x) = Z.of_N x.
Proof.
  intros Hx. rewrite <- (N2Nat.id x).
  assert (Hk : (N.to_nat x < 10)%nat) by lia.
  revert Hk. generalize (N.to_nat x). intros k Hk.
  do 10 (destruct k as [|k]; [by vm_compute|]). lia.
Qed.

(** The digits of a number come in front of the text they are added to. *)
Lemma digits_in_front x : ∀ tail, pretty_N_go x "" +:+ tail = pretty_N_go x tail.
Proof.
  induction (N.lt_wf_0 x) as [x _ IH]; intros tail.
  destruct (decide (x = 0%N)) as [->|Hx]; [by rewrite !pretty_N_go_0|].
  assert (Hlt : (x `div` 10 < x)%N) by (apply N.div_lt; lia).
  rewrite !(pretty_N_go_step x) by lia.
  rewrite <- (IH _ Hlt (String _ tail)), <- (IH _ Hlt (String _ "")), string_app_assoc.
  reflexivity.
Qed.

(** The decimal text of a natural number: digits only, and read back as the
    number. *)
Lemma pretty_N_go_decimal x :
  all_digits (pretty_N_go x "")
  ∧ decimal 0 (pretty_N_go x "") = Z.of_N x
  ∧ ((0 < x)%N → pretty_N_go x "" ≠ "").
Proof.
  induction (N.lt_wf_0 x) as [x _ IH].
  destruct (decide (x = 0%N)) as [->|Hx].
  { rewrite pretty_N_go_0. split; [constructor|]. split; [done | lia]. }
  rewrite (pretty_N_go_step x) by lia.
  assert (Hlt : (x `div` 10 < x)%N) by (apply N.div_lt; lia).
  destruct (IH _ Hlt) as (Hd & Hv & _).
  destruct (pretty_N_char_digit (x `mod` 10)) as [Hcd Hcv];
    [apply N.mod_lt; lia|].
  rewrite <- digits_in_front. split; [|split].
  - apply all_digits_app; [done|]. by repeat constructor.
  - rewrite decimal_app, Hv. cbn [decimal]. rewrite Hcv.
    rewrite (N.div_mod x 10) at 3 by lia. lia.
  - intros _. by destruct (pretty_N_go (x `div` 10) "").
Qed.

Lemma pretty_nonneg n :
  0 <= n → all_digits (pretty n) ∧ pretty n ≠ "" ∧ decimal 0 (pretty n) = n.
Proof.
  intros Hn. destruct n as [|p|p]; [| |lia].
  - split; [by repeat constructor|]. split; [done | reflexivity].
  - unfold pretty, pretty_Z, pretty, pretty_positive, pretty, pretty_N.
    rewrite decide_False by done.
    destruct (pretty_N_go_decimal (N.pos p)) as (Hd & Hv & Hne).
    split; [done|]. split; [apply Hne; lia | by rewrite Hv].
Qed.

(** What the reconstruction reads in the tag [attempt_id:<attempt>]: the
    attempt when it is a non-negative integer, nothing when it is negative
    or [None]. *)
Lemma attempt_tag_format0 attempt :
  attempt_tag ("attempt_id:" +:+ format0 attempt)
  = match attempt with
    | Py.Int n => if bool_decide (0 <= n) then Some n else None
    | Py.Str s => attempt_tag ("attempt_id:" +:+ s)
    | Py.None_ => None
    end.
Proof.
  destruct attempt as [|n|s]; [done| |done]. unfold format0.
  case_bool_decide as Hn.
  - destruct (pretty_nonneg n Hn) as (Hd & Hne & Hv). unfold attempt_tag.
    rewrite <- (string_app_nil_r (pretty n)) at 1.
    rewrite (attempt_id_re_match_intro (pretty n) "" Hne Hd eq_refl). simpl. by rewrite Hv.
  - destruct n as [|p|p]; [lia|lia|].
    unfold attempt_tag, attempt_id_re_match. rewrite strip_prefix_append.
    reflexivity.
Qed.

End FormatAttempt.

Section CodePackageFacts.
Variable list_of_set : gset string → list string.
Hypothesis list_of_set_elements : ∀ X, list_of_set X ≡ₚ elements X.
Variable json_dumps : list (string * option string) → string.
Implicit Types (self : provider) (ext : externals) (environ : gmap string string)
  (metadata : list MetaDatum.t).

Lemma list_of_set_singleton t : list_of_set (list_to_set [t]) = [t].
Proof.
  apply Permutation_singleton_r. rewrite list_of_set_elements.
  cbn [list_to_set foldr]. by rewrite (right_id_L ∅ (∪)), elements_singleton.
Qed.

Lemma explicit_attempt_one_tag (r : Md.t) t :
  Md.tags r = Some [t] → explicit_attempt r = attempt_tag t.
Proof.
  intros Ht. unfold explicit_attempt. rewrite Ht. simpl. by destruct (attempt_tag t).
Qed.

(** The record of a datum that carries one tag carries that tag alone. *)
Lemma metadata_to_json_one_tag self ext run_id step_name task_id metadata t r :
  Forall (fun d => MetaDatum.tags d = Some [t]) metadata →
  r ∈ _metadata_to_json list_of_set self ext run_id step_name task_id metadata →
  Md.tags r = Some [t]
  ∧ ∃ d, d ∈ metadata ∧ Md.field_name r = MetaDatum.field d
         ∧ Md.value r = MetaDatum.value d.
Proof.
  intros Hall. unfold _metadata_to_json.
  intros (k & d & -> & Hk)%elem_of_lookup_imap. apply list_elem_of_lookup_2 in Hk.
  rewrite Forall_forall in Hall. cbn [Md.tags Md.field_name Md.value].
  rewrite (Hall d Hk). cbn [truthy default from_option id].
  rewrite list_of_set_singleton. split; [done|]. by exists d.
Qed.

Lemma register_code_package_inv environ run_id step_name task_id attempt call :
  _register_code_package_metadata json_dumps environ run_id step_name task_id attempt
  = Some call →
  ∃ datum, rc_metadata call = [datum]
           ∧ MetaDatum.field datum = "code-package"
           ∧ MetaDatum.tags datum = Some ["attempt_id:" +:+ format0 attempt].
Proof.
  unfold _register_code_package_metadata.
  destruct (environ !! "METAFLOW_CODE_SHA") as [sha|]; [|by intros [=]].
  case_bool_decide; cbn [app truthy]; [|by intros [=]].
  intros [= <-]. by eexists.
Qed.

(** X17: [_register_code_package_metadata] calls [register_metadata] exactly
    when the variable METAFLOW_CODE_SHA is set and not empty; the call is for
    the run, step and task given and registers one datum, of field and type
    [code-package], whose only tag is [attempt_id:] followed by the
    attempt. *)
Theorem register_code_package_call environ run_id step_name task_id attempt :
  (is_Some (_register_code_package_metadata json_dumps environ run_id step_name
              task_id attempt)
   ↔ ∃ sha, environ !! "METAFLOW_CODE_SHA" = Some sha ∧ sha ≠ "")
  ∧ ∀ call,
      _register_code_package_metadata json_dumps environ run_id step_name task_id attempt
      = Some call →
      rc_run_id call = run_id ∧ rc_step_name call = step_name
      ∧ rc_task_id call = task_id
      ∧ ∃ datum, rc_metadata call = [datum]
                 ∧ MetaDatum.field datum = "code-package"
                 ∧ MetaDatum.type datum = "code-package"
                 ∧ MetaDatum.tags datum = Some ["attempt_id:" +:+ format0 attempt]
                 ∧ MetaDatum.value datum
                   = Py.Str (json_dumps [("ds_type", environ !! "METAFLOW_CODE_DS");
                                         ("sha", environ !! "METAFLOW_CODE_SHA");
                                         ("location", environ !! "METAFLOW_CODE_URL")]).
Proof.
  unfold _register_code_package_metadata.
  destruct (environ !! "METAFLOW_CODE_SHA") as [sha|] eqn:Hsha.
  - case_bool_decide as Hne; cbn [app truthy].
    + split; [split; [by eauto | by eauto]|].
      intros call [= <-]. cbn [rc_run_id rc_step_name rc_task_id rc_metadata].
      repeat (split; [done|]). eexists. split; [reflexivity|]. done.
    + split; [|by intros ? [=]].
      split; [by intros [? [=]] | intros (s & [= <-] & ?); done].
  - cbn [truthy]. split; [|by intros ? [=]].
    split; [by intros [? [=]] | by intros (s & [=] & ?)].
Qed.

(** X18: the record [_metadata_to_json] builds from the datum registered for
    the code package is read back by the reconstruction as a record of the
    attempt it was written for, when the attempt is a non-negative integer;
    for a negative attempt the tag is not recognised, and the record counts
    as one without attempt tag. *)
Theorem code_package_attempt_roundtrip self ext environ run_id step_name task_id n call r :
  _register_code_package_metadata json_dumps environ run_id step_name task_id (Py.Int n)
  = Some call →
  r ∈ _metadata_to_json list_of_set self ext run_id step_name task_id (rc_metadata call) →
  explicit_attempt r = (if bool_decide (0 <= n) then Some n else None)
  ∧ Md.field_name r = "code-package".
Proof.
  intros Hcall Hr.
  destruct (register_code_package_inv environ run_id step_name task_id
              (Py.Int n) call Hcall) as (datum & Hm & Hfield & Htags).
  rewrite Hm in Hr.
  destruct (metadata_to_json_one_tag self ext run_id step_name task_id [datum] _ r
              (Forall_cons_2 _ _ _ Htags (List.Forall_nil _)) Hr)
    as (Hrt & d & ->%list_elem_of_singleton & Hrf & _).
  split; [|by rewrite Hrf].
  rewrite (explicit_attempt_one_tag _ _ Hrt), (attempt_tag_format0 (Py.Int n)).
  by case_bool_decide.
Qed.

Lemma filter_all_in {A} (P : A → Prop) `{!∀ x, Decision (P x)} (l : list A) :
  (∀ x, x ∈ l → P x) → filter P l = l.
Proof.
  induction l as [|x l IH]; intros Hall; [done|].
  rewrite filter_cons_True by (apply Hall; left).
  f_equal. apply IH. intros y Hy. apply Hall. by right.
Qed.

Lemma filter_none_in {A} (P : A → Prop) `{!∀ x, Decision (P x)} (l : list A) :
  (∀ x, x ∈ l → ¬ P x) → filter P l = [].
Proof.
  induction l as [|x l IH]; intros Hall; [done|].
  rewrite filter_cons_False by (apply Hall; left).
  apply IH. intros y Hy. apply Hall. by right.
Qed.

(** X19: metadata written for attempt [n], each datum with the one tag
    [attempt_id:n], and then read back: the reconstruction for [n] returns
    every record built from it, in order, and the reconstruction for any
    other attempt returns none. *)
Theorem metadata_written_then_reconstructed self ext run_id step_name task_id metadata n :
  0 <= n →
  Forall (fun d => MetaDatum.tags d = Some ["attempt_id:" +:+ format0 (Py.Int n)])
         metadata →
  Forall (fun d => MetaDatum.field d = "attempt" →
                   ∃ k, Py.int (MetaDatum.value d) = Py.Returns k) metadata →
  let records :=
    _metadata_to_json list_of_set self ext run_id step_name task_id metadata in
  _reconstruct_metadata_for_attempt records n = Py.Returns records
  ∧ ∀ m, m ≠ n → _reconstruct_metadata_for_attempt records m = Py.Returns [].
Proof.
  intros Hn Htags Hvalues records.
  assert (Hexp : ∀ r, r ∈ records → explicit_attempt r = Some n).
  { intros r Hr.
    destruct (metadata_to_json_one_tag _ _ _ _ _ _ _ r Htags Hr) as [Hrt _].
    rewrite (explicit_attempt_one_tag _ _ Hrt), (attempt_tag_format0 (Py.Int n)).
    by rewrite bool_decide_true. }
  assert (Hok : Forall attempt_value_ok records).
  { apply Forall_forall. intros r Hr Hf.
    destruct (metadata_to_json_one_tag _ _ _ _ _ _ _ r Htags Hr)
      as (_ & d & Hd & Hrf & Hrv).
    rewrite Forall_forall in Hvalues. rewrite Hrv. apply (Hvalues d Hd). by rewrite <- Hrf. }
  assert (Hall : Forall (fun v => is_Some (explicit_attempt v)) records).
  { apply Forall_forall. intros r Hr. rewrite (Hexp r Hr). by eexists. }
  rewrite (reconstruct_spec _ _ Hok), (bool_decide_true _ Hall). split.
  - f_equal. apply filter_all_in. exact Hexp.
  - intros m Hm. rewrite (reconstruct_spec _ _ Hok), (bool_decide_true _ Hall).
    f_equal. apply filter_none_in. intros r Hr. rewrite (Hexp r Hr). congruence.
Qed.

End CodePackageFacts.

(** ** The provider information *)

(** X20: reading [INFO] after it was set gives the computed information,
    and the default information when the computed one is empty; before any
    setting it gives the default; reading it again gives the same value and
    leaves the class as the first reading left it. *)
Theorem info_get_set (compute_info : string → string) (default_info : string)
    (val : string) (_INFO : option string) :
  fst (_get_info default_info (_set_info compute_info val _INFO))
  = (if bool_decide (compute_info val = "") then default_info else compute_info val)
  ∧ fst (_get_info default_info None) = default_info
  ∧ snd (_get_info default_info _INFO) = Some (fst (_get_info default_info _INFO))
  ∧ _get_info default_info (snd (_get_info default_info _INFO))
    = _get_info default_info _INFO.
Proof.
  unfold _get_info, _set_info. split; [by case_bool_decide|]. split; [done|].
  destruct _INFO as [s|]; repeat (case_bool_decide; simpl); subst; try done;
    simpl; split; try done; by case_bool_decide.
Qed.

Lemma register_code_package_call_witness :
  is_Some (_register_code_package_metadata sample_json_dumps sample_environ
             (Py.Int 7) "start" (Py.Int 1) (Py.Int 2)).
Proof.
  apply (proj1 (register_code_package_call sample_json_dumps sample_environ
                  (Py.Int 7) "start" (Py.Int 1) (Py.Int 2))).
  exists "0a1b". split; [reflexivity | discriminate].
Defined.

Lemma code_package_attempt_roundtrip_witness :
  ∃ r, explicit_attempt r = (if bool_decide (0 <= 2) then Some 2 else None)
       ∧ Md.field_name r = "code-package".
Proof.
  assert (Hperm : ∀ X : gset string, elements X ≡ₚ elements X) by reflexivity.
  eexists.
  eapply (code_package_attempt_roundtrip elements Hperm sample_json_dumps
            sample_provider sample_ext sample_environ (Py.Int 7) "start" (Py.Int 1) 2).
  - vm_compute. reflexivity.
  - simpl. apply list_elem_of_here.
Defined.

Lemma metadata_written_then_reconstructed_witness :
  let records :=
    _metadata_to_json elements sample_provider sample_ext (Py.Int 7) "start" (Py.Int 1)
      [MetaDatum.mk "attempt" (Py.Str "2") "attempt" (Some ["attempt_id:2"]);
       MetaDatum.mk "x" (Py.Str "a") "t" (Some ["attempt_id:2"])] in
  _reconstruct_metadata_for_attempt records 2 = Py.Returns records
  ∧ ∀ m, m ≠ 2 → _reconstruct_metadata_for_attempt records m = Py.Returns [].
Proof.
  assert (Hperm : ∀ X : gset string, elements X ≡ₚ elements X) by reflexivity.
  apply (metadata_written_then_reconstructed elements Hperm sample_provider sample_ext
           (Py.Int 7) "start" (Py.Int 1) _ 2).
  - lia.
  - each_record ltac:(vm_compute; reflexivity).
  - each_record ltac:(intros Hf; first [by vm_compute in Hf | eexists; vm_compute; reflexivity]).
Defined.

(** ** Rule names of the event bridge client *)

Section FormatFacts.
Variable b32_sha1 : string → string.

Lemma str_take_length n : ∀ s, String.length (str_take n s) = (n `min` String.length s)%nat.
Proof. induction n as [|n IH]; intros [|c s]; simpl; try done. by rewrite IH. Qed.

Lemma str_lower_length s : String.length (str_lower s) = String.length s.
Proof. induction s as [|c s IH]; simpl; [done | by rewrite IH]. Qed.

Lemma string_app_length a b :
  String.length (a +:+ b) = (String.length a + String.length b)%nat.
Proof.
  induction a as [|c a IH]; [done|].
  change (S (String.length (a +:+ b)) = S (String.length a + String.length b)).
  by rewrite IH.
Qed.

Lemma str_take_prefix p : ∀ n rest,
  String.length p = n → str_take n (p +:+ rest) = p.
Proof.
  induction p as [|c p IH]; intros n rest <-; [done|].
  change (String c (str_take (String.length p) (p +:+ rest)) = String c p).
  f_equal. by apply IH.
Qed.

(** X21: [format] never returns a name of more than 64 characters; it
    leaves a name of at most 64 characters as it is, so formatting twice is
    formatting once; a longer name becomes a name of exactly 64 characters
    that starts with the 47 first characters of the name followed by a dash,
    as long as the digest text has its 16 characters. *)
Theorem format_length name :
  (String.length (format b32_sha1 name) <= 64)%nat
  ∧ ((String.length name <= 64)%nat → format b32_sha1 name = name)
  ∧ format b32_sha1 (format b32_sha1 name) = format b32_sha1 name
  ∧ ((64 < String.length name)%nat → (16 <= String.length (b32_sha1 name))%nat →
     String.length (format b32_sha1 name) = 64%nat
     ∧ str_take 48 (format b32_sha1 name) = str_take 47 name +:+ "-").
Proof.
  assert (Hshort : ∀ s, (String.length s <= 64)%nat → format b32_sha1 s = s).
  { intros s Hs. unfold format. by rewrite (proj2 (Nat.leb_le _ _) Hs). }
  assert (Hlen : (String.length (format b32_sha1 name) <= 64)%nat).
  { unfold format. destruct (String.length name <=? 64)%nat eqn:E.
    - by apply Nat.leb_le.
    - rewrite !string_app_length, str_lower_length, !str_take_length.
      cbn [String.length]. lia. }
  split; [exact Hlen|]. split; [apply Hshort|]. split; [by apply Hshort|].
  intros Hlong Hhash. unfold format.
  rewrite (proj2 (Nat.leb_gt _ _) Hlong). split.
  - rewrite !string_app_length, str_lower_length, !str_take_length.
      cbn [String.length]. lia.
  - rewrite <- string_app_assoc. apply str_take_prefix.
    rewrite string_app_length, str_take_length. cbn [String.length]. lia.
Qed.

End FormatFacts.

(** ** Retrying an operation *)

Section TryOpFacts.
Context {R : Type}.
Variable op : nat → op_outcome R.

Lemma try_loop_spec remaining : ∀ k,
  match try_loop op k remaining with
  | (Some (TryReturns r), calls) =>
      (k < calls <= k + remaining)%nat ∧ op (calls - 1)%nat = OpReturns r
      ∧ ∀ j, (k <= j < calls - 1)%nat → op j = OpTimeout
  | (Some (TryRaises e), calls) =>
      (k < calls <= k + remaining)%nat ∧ op (calls - 1)%nat = OpRaises e
      ∧ ∀ j, (k <= j < calls - 1)%nat → op j = OpTimeout
  | (Some (TryTimeout _), _) => False
  | (None, calls) =>
      calls = (k + remaining)%nat ∧ ∀ j, (k <= j < calls)%nat → op j = OpTimeout
  end.
Proof.
  induction remaining as [|n IH]; intros k; simpl.
  - split; [lia|]. intros j ?. lia.
  - destruct (op k) as [r| |e] eqn:Hk.
    + replace (S k - 1)%nat with k by lia. split; [lia|]. split; [done|]. intros j ?. lia.
    + specialize (IH (S k)). destruct (try_loop op (S k) n) as [[[r|msg|e]|] calls].
      * destruct IH as (Hc & Hop & Hto). split; [lia|]. split; [done|].
        intros j Hj. destruct (decide (j = k)) as [->|]; [done|]. apply Hto. lia.
      * done.
      * destruct IH as (Hc & Hop & Hto). split; [lia|]. split; [done|].
        intros j Hj. destruct (decide (j = k)) as [->|]; [done|]. apply Hto. lia.
      * destruct IH as (Hc & Hto). split; [lia|].
        intros j Hj. destruct (decide (j = k)) as [->|]; [done|]. apply Hto. lia.
    + replace (S k - 1)%nat with k by lia. split; [lia|]. split; [done|]. intros j ?. lia.
Qed.

(** X22: [__try_op__] calls the operation at most [retries] times, one call
    after the other until a call does not time out: it returns the value of
    that call, or lets its exception through without another try; when all
    [retries] calls time out (none at all for [retries <= 0]) it raises the
    timeout that names the operation and the number of retries. *)
Theorem try_op_spec op_name retries :
  let '(res, calls) := __try_op__ op op_name retries in
  (calls <= Z.to_nat retries)%nat
  ∧ match res with
    | TryReturns r =>
        (0 < calls)%nat ∧ op (calls - 1)%nat = OpReturns r
        ∧ ∀ j, (j < calls - 1)%nat → op j = OpTimeout
    | TryRaises e =>
        (0 < calls)%nat ∧ op (calls - 1)%nat = OpRaises e
        ∧ ∀ j, (j < calls - 1)%nat → op j = OpTimeout
    | TryTimeout msg =>
        calls = Z.to_nat retries
        ∧ (∀ j, (j < calls)%nat → op j = OpTimeout)
        ∧ msg = "Timeout after " +:+ pretty retries +:+ " retries on operation '"
                +:+ op_name +:+ "'"
    end.
Proof.
  unfold __try_op__. pose proof (try_loop_spec (Z.to_nat retries) 0) as Hs.
  destruct (try_loop op 0 (Z.to_nat retries)) as [[[r|msg|e]|] calls]; simpl in *.
  - destruct Hs as (Hc & Hop & Hto). split; [lia|]. split; [lia|]. split; [done|].
    intros j Hj. apply Hto. lia.
  - done.
  - destruct Hs as (Hc & Hop & Hto). split; [lia|]. split; [lia|]. split; [done|].
    intros j Hj. apply Hto. lia.
  - destruct Hs as (-> & Hto). split; [lia|]. split; [done|]. split; [|done].
    intros j Hj. apply Hto. lia.
Qed.

End TryOpFacts.

Lemma format_length_witness :
  String.length
    (format (fun _ => "ABCDEFGHIJKLMNOPQRSTUVWXYZ234567")
            "HelloFlow.user.alice.a-very-long-branch-name.with-a-project-prefix.prod")
  = 64%nat.
Proof.
  apply (proj2 (proj2 (proj2 (format_length (fun _ => "ABCDEFGHIJKLMNOPQRSTUVWXYZ234567")
           "HelloFlow.user.alice.a-very-long-branch-name.with-a-project-prefix.prod")))).
  - vm_compute. lia.
  - vm_compute. lia.
Defined.

Example format_long_name :
  format (fun _ => "ABCDEFGHIJKLMNOPQRSTUVWXYZ234567")
         "HelloFlow.user.alice.a-very-long-branch-name.with-a-project-prefix.prod"
  = "HelloFlow.user.alice.a-very-long-branch-name.wi-abcdefghijklmnop".
Proof. vm_compute. reflexivity. Qed.

Example try_op_third_call :
  __try_op__ (fun k => if (k <? 2)%nat then OpTimeout else OpReturns 5) "recv" 3
  = (TryReturns 5, 3%nat).
Proof. vm_compute. reflexivity. Qed.

Example try_op_gives_up :
  __try_op__ (fun k => if (k <? 2)%nat then OpTimeout else OpReturns 5) "recv" 2
  = (TryTimeout "Timeout after 2 retries on operation 'recv'", 2%nat).
Proof. vm_compute. reflexivity. Qed.

Example try_op_no_retries :
  __try_op__ (fun k => OpReturns 5) "recv" (-1)
  = (TryTimeout "Timeout after -1 retries on operation 'recv'", 0%nat).
Proof. vm_compute. reflexivity. Qed.
